(** * go-eth2-client: the versioned block request and the block-contents YAML codec

    A shallow embedding of
      - [api/versionedblockrequest.go]: the accessors of [VersionedBlockRequest],
      - [api/v1/electra/blockcontents_yaml.go]: [MarshalYAML] and
        [UnmarshalYAML] of [BlockContents],
    and the properties of both.

    Conventions of the embedding:
      - a Go pointer [*T] is an [option T], [nil] being [None];
      - a Go slice [[]T] is a [slice T], an [option (list T)], so that the nil
        slice and the empty non-nil slice stay apart;
      - a Go function returning [(T, error)] returns a pair [T * option error],
        the value first, [None] for the nil error;
      - a method is a function of its receiver, which is not nil;
      - the projections of the records of one module share a name space, so
        where two structs have a field of the same name one of them takes a
        prefix. *)

From Stdlib Require Import ZArith Strings.Byte.
From stdpp Require Import base option list strings.

Local Open Scope string_scope.
Local Open Scope nat_scope.

(** ** Go values *)

Module go.

(** [[]T]: [None] is the nil slice. *)
Definition slice (A : Type) : Type := option (list A).

(** The elements a [range] loop visits; none for the nil slice. *)
Definition elems {A} (s : slice A) : list A := default [] s.

(** [len(s)]. *)
Definition len {A} (s : slice A) : nat := length (elems s).

(** [make([]T, n)]: a non-nil slice of [n] zero values. *)
Definition make {A} (zero : A) (n : nat) : list A := replicate n zero.

(** [for i, x := range src { dst[i] = f(x) }], started at index [i]. *)
Fixpoint range_assign {A B} (f : A → B) (i : nat) (src : list A) (dst : list B)
  : list B :=
  match src with
  | [] => dst
  | x :: rest => range_assign f (S i) rest (<[i := f x]> dst)
  end.

(** One link of a guard [p == nil || p.f == nil]: follow the pointer field
    [f] of [p], if [p] is there. *)
Definition deref {A B} (p : option A) (f : A → option B) : option B :=
  match p with
  | Some x => f x
  | None => None
  end.

(** The [error] values that reach this code: the two sentinels of package
    api, an error made by a collaborator outside this code ([Foreign], with
    its message), and [errors.Wrap] of github.com/pkg/errors applied to a
    non-nil cause and a label. *)
Inductive error : Type :=
| ErrDataMissing
| ErrUnsupportedVersion
| Foreign (msg : string)
| Wrap (cause : error) (msg : string).

End go.

Notation "p ?> f" := (go.deref p f) (at level 50, left associativity).

(** ** Package phase0: the scalar types the accessors return *)

Module phase0.

(** [type Slot uint64]. *)
Definition Slot : Type := Z.

(** [type Root [32]byte] and [type Hash32 [32]byte]. *)
Definition Root : Type := list byte.
Definition Hash32 : Type := list byte.

(** [phase0.Root{}] and [phase0.Hash32{}]: thirty-two zero bytes. *)
Definition zeroRoot : Root := replicate 32 x00.
Definition zeroHash32 : Hash32 := replicate 32 x00.

End phase0.

(** ** Package spec: the version tag and the versioned wrappers *)

Module spec.

(** Modelled from the spec: [spec.DataVersion] and its constants are declared
    in package spec, outside the files at hand.  The four constants the
    accessors switch on are the four constructors; [DataVersionOther] stands
    for every other value of the type, the ones the [default:] branches
    receive.  (Go rejects a switch with two equal constant cases, so the
    four are pairwise different.) *)
Inductive DataVersion : Type :=
| DataVersionBellatrix
| DataVersionCapella
| DataVersionDeneb
| DataVersionElectra
| DataVersionOther (raw : N).

Definition known (d : DataVersion) : bool :=
  match d with DataVersionOther _ => false | _ => true end.

(** The zero value of the type, taken outside the four.  It only fills the
    elements of a slice fresh from [make], each of which the accessors
    overwrite. *)
Definition zeroDataVersion : DataVersion := DataVersionOther 0.

Section Wrappers.
Variables Attestation0 AttestationE : Type.
Variables AttesterSlashing0 AttesterSlashingE : Type.

(** [spec.VersionedAttestation], with the fields [Version], [Bellatrix],
    [Capella], [Deneb] and [Electra] the accessors assign; a field left out
    of a composite literal is nil. *)
Record VersionedAttestation : Type := mkVersionedAttestation {
  AttVersion : DataVersion;
  AttBellatrix : option Attestation0;
  AttCapella : option Attestation0;
  AttDeneb : option Attestation0;
  AttElectra : option AttestationE
}.

(** [spec.VersionedAttesterSlashing], likewise. *)
Record VersionedAttesterSlashing : Type := mkVersionedAttesterSlashing {
  SlVersion : DataVersion;
  SlBellatrix : option AttesterSlashing0;
  SlCapella : option AttesterSlashing0;
  SlDeneb : option AttesterSlashing0;
  SlElectra : option AttesterSlashingE
}.
End Wrappers.

Arguments mkVersionedAttestation {_ _}.
Arguments mkVersionedAttesterSlashing {_ _}.

(** The zero values [spec.VersionedAttestation{}] and
    [spec.VersionedAttesterSlashing{}]. *)
Definition zeroVersionedAttestation {A0 AE} : VersionedAttestation A0 AE :=
  mkVersionedAttestation zeroDataVersion None None None None.
Definition zeroVersionedAttesterSlashing {S0 SE} : VersionedAttesterSlashing S0 SE :=
  mkVersionedAttesterSlashing zeroDataVersion None None None None.

Arguments AttVersion {_ _}.
Arguments AttBellatrix {_ _}.
Arguments AttCapella {_ _}.
Arguments AttDeneb {_ _}.
Arguments AttElectra {_ _}.
Arguments SlVersion {_ _}.
Arguments SlBellatrix {_ _}.
Arguments SlCapella {_ _}.
Arguments SlDeneb {_ _}.
Arguments SlElectra {_ _}.

End spec.

(** ** The payload records *)

Module block.

Section Shape.
Variables TAttestation TAttesterSlashing TProposerSlashing TSyncAggregate : Type.

(** Modelled from the spec: the signed beacon blocks of packages bellatrix,
    capella, deneb and electra are declared outside the files at hand.  Each
    is a signed block holding a message; the message holds a slot, a parent
    root, a state root and a body; the body holds the attestations, the two
    kinds of slashings, the sync aggregate and the execution payload with its
    block hash.  These are the fields the accessors read; the versions differ
    in the types of the attestations and attester slashings, which are the
    parameters here. *)
Record ExecutionPayloadT : Type := mkExecutionPayload {
  BlockHash : phase0.Hash32
}.

Record BeaconBlockBody : Type := mkBeaconBlockBody {
  ProposerSlashings : go.slice (option TProposerSlashing);
  AttesterSlashings : go.slice (option TAttesterSlashing);
  Attestations : go.slice (option TAttestation);
  SyncAggregate : option TSyncAggregate;
  ExecutionPayload : option ExecutionPayloadT
}.

Record BeaconBlock : Type := mkBeaconBlock {
  Slot : phase0.Slot;
  ParentRoot : phase0.Root;
  StateRoot : phase0.Root;
  Body : option BeaconBlockBody
}.

Record SignedBeaconBlock : Type := mkSignedBeaconBlock {
  Message : option BeaconBlock
}.
End Shape.

Arguments mkBeaconBlockBody {_ _ _ _}.
Arguments ProposerSlashings {_ _ _ _}.
Arguments AttesterSlashings {_ _ _ _}.
Arguments Attestations {_ _ _ _}.
Arguments SyncAggregate {_ _ _ _}.
Arguments ExecutionPayload {_ _ _ _}.
Arguments mkBeaconBlock {_ _ _ _}.
Arguments Slot {_ _ _ _}.
Arguments ParentRoot {_ _ _ _}.
Arguments StateRoot {_ _ _ _}.
Arguments Body {_ _ _ _}.
Arguments mkSignedBeaconBlock {_ _ _ _}.
Arguments Message {_ _ _ _}.

(** The links below a payload slot, as the properties of the accessors
    speak of them: which of payload, message, body and execution payload
    are there. *)
Section Links.
Context {A S P G : Type}.
Implicit Types (slot : option (SignedBeaconBlock A S P G)).

Definition message_present slot (message : BeaconBlock A S P G) : Prop :=
  ∃ signed, slot = Some signed ∧ Message signed = Some message.

Definition body_present slot (body : BeaconBlockBody A S P G) : Prop :=
  ∃ message, message_present slot message ∧ Body message = Some body.

Definition execution_payload_present slot (payload : ExecutionPayloadT) : Prop :=
  ∃ body, body_present slot body ∧ ExecutionPayload body = Some payload.

Definition message_missing slot : Prop :=
  slot = None ∨ ∃ signed, slot = Some signed ∧ Message signed = None.

Definition body_missing slot : Prop :=
  message_missing slot ∨ ∃ message, message_present slot message ∧ Body message = None.

Definition execution_payload_missing slot : Prop :=
  body_missing slot ∨ ∃ body, body_present slot body ∧ ExecutionPayload body = None.
End Links.

End block.

(** ** Package api: [VersionedBlockRequest] and its accessors *)

Module api.
Import spec.

Section Accessors.
(** The sub-items of a body are opaque here: [phase0.Attestation] and
    [electra.Attestation], [phase0.AttesterSlashing] and
    [electra.AttesterSlashing], [phase0.ProposerSlashing],
    [altair.SyncAggregate]. *)
Context {phase0_Attestation electra_Attestation : Type}.
Context {phase0_AttesterSlashing electra_AttesterSlashing : Type}.
Context {phase0_ProposerSlashing altair_SyncAggregate : Type}.

(** Bellatrix, Capella and Deneb bodies carry phase0 attestations and
    attester slashings, Electra bodies carry their own. *)
Local Abbreviation SignedBeaconBlock0 :=
  (block.SignedBeaconBlock phase0_Attestation phase0_AttesterSlashing
     phase0_ProposerSlashing altair_SyncAggregate).
Local Abbreviation SignedBeaconBlockE :=
  (block.SignedBeaconBlock electra_Attestation electra_AttesterSlashing
     phase0_ProposerSlashing altair_SyncAggregate).
Local Abbreviation BeaconBlock0 :=
  (block.BeaconBlock phase0_Attestation phase0_AttesterSlashing
     phase0_ProposerSlashing altair_SyncAggregate).
Local Abbreviation BeaconBlockE :=
  (block.BeaconBlock electra_Attestation electra_AttesterSlashing
     phase0_ProposerSlashing altair_SyncAggregate).
Local Abbreviation BeaconBlockBody0 :=
  (block.BeaconBlockBody phase0_Attestation phase0_AttesterSlashing
     phase0_ProposerSlashing altair_SyncAggregate).
Local Abbreviation BeaconBlockBodyE :=
  (block.BeaconBlockBody electra_Attestation electra_AttesterSlashing
     phase0_ProposerSlashing altair_SyncAggregate).

(** [VersionedBlockRequest] contains a versioned signed beacon block request. *)
Record VersionedBlockRequest : Type := mkVersionedBlockRequest {
  Version : DataVersion;
  Bellatrix : option SignedBeaconBlock0;
  Capella : option SignedBeaconBlock0;
  Deneb : option SignedBeaconBlock0;
  Electra : option SignedBeaconBlockE
}.

(** The collaborators of the accessors: the tree hashes of a message and
    of a body, and the string form of a signed block, one per package. *)
Variable bellatrix_BeaconBlock_HashTreeRoot : BeaconBlock0 → phase0.Root * option go.error.
Variable capella_BeaconBlock_HashTreeRoot : BeaconBlock0 → phase0.Root * option go.error.
Variable deneb_BeaconBlock_HashTreeRoot : BeaconBlock0 → phase0.Root * option go.error.
Variable electra_BeaconBlock_HashTreeRoot : BeaconBlockE → phase0.Root * option go.error.
Variable bellatrix_BeaconBlockBody_HashTreeRoot : BeaconBlockBody0 → phase0.Root * option go.error.
Variable capella_BeaconBlockBody_HashTreeRoot : BeaconBlockBody0 → phase0.Root * option go.error.
Variable deneb_BeaconBlockBody_HashTreeRoot : BeaconBlockBody0 → phase0.Root * option go.error.
Variable electra_BeaconBlockBody_HashTreeRoot : BeaconBlockBodyE → phase0.Root * option go.error.
Variable bellatrix_SignedBeaconBlock_String : SignedBeaconBlock0 → string.
Variable capella_SignedBeaconBlock_String : SignedBeaconBlock0 → string.
Variable deneb_SignedBeaconBlock_String : SignedBeaconBlock0 → string.
Variable electra_SignedBeaconBlock_String : SignedBeaconBlockE → string.

(** The guards of the accessors are chains [p == nil || p.Message == nil
    || ...] evaluated left to right; a chain lets control through exactly
    when the links are all there: [p ?> f ?> g] is [Some] of the last
    structure exactly then. *)

(** [Slot] returns the slot of the signed beacon block. *)
Definition Slot (v : VersionedBlockRequest) : phase0.Slot * option go.error :=
  match Version v with
  | DataVersionBellatrix =>
      match Bellatrix v ?> block.Message with
      | None => (0%Z, Some go.ErrDataMissing)
      | Some message => (block.Slot message, None)
      end
  | DataVersionCapella =>
      match Capella v ?> block.Message with
      | None => (0%Z, Some go.ErrDataMissing)
      | Some message => (block.Slot message, None)
      end
  | DataVersionDeneb =>
      match Deneb v ?> block.Message with
      | None => (0%Z, Some go.ErrDataMissing)
      | Some message => (block.Slot message, None)
      end
  | DataVersionElectra =>
      match Electra v ?> block.Message with
      | None => (0%Z, Some go.ErrDataMissing)
      | Some message => (block.Slot message, None)
      end
  | DataVersionOther _ => (0%Z, Some go.ErrUnsupportedVersion)
  end.

(** [ExecutionBlockHash] returns the block hash of the beacon block. *)
Definition ExecutionBlockHash (v : VersionedBlockRequest)
  : phase0.Hash32 * option go.error :=
  match Version v with
  | DataVersionBellatrix =>
      match Bellatrix v ?> block.Message ?> block.Body ?> block.ExecutionPayload with
      | None => (phase0.zeroHash32, Some go.ErrDataMissing)
      | Some payload => (block.BlockHash payload, None)
      end
  | DataVersionCapella =>
      match Capella v ?> block.Message ?> block.Body ?> block.ExecutionPayload with
      | None => (phase0.zeroHash32, Some go.ErrDataMissing)
      | Some payload => (block.BlockHash payload, None)
      end
  | DataVersionDeneb =>
      match Deneb v ?> block.Message ?> block.Body ?> block.ExecutionPayload with
      | None => (phase0.zeroHash32, Some go.ErrDataMissing)
      | Some payload => (block.BlockHash payload, None)
      end
  | DataVersionElectra =>
      match Electra v ?> block.Message ?> block.Body ?> block.ExecutionPayload with
      | None => (phase0.zeroHash32, Some go.ErrDataMissing)
      | Some payload => (block.BlockHash payload, None)
      end
  | DataVersionOther _ => (phase0.zeroHash32, Some go.ErrUnsupportedVersion)
  end.

(** The body of the four collection branches: [make] a slice as long as
    the source, then assign every index in a [range] loop. *)
Definition wrap_each {A B} (zero : B) (wrap : A → B) (src : go.slice A) : go.slice B :=
  Some (go.range_assign wrap 0 (go.elems src) (go.make zero (go.len src))).

(** [Attestations] returns the attestations of the beacon block. *)
Definition Attestations (v : VersionedBlockRequest)
  : go.slice (VersionedAttestation phase0_Attestation electra_Attestation) * option go.error :=
  match Version v with
  | DataVersionBellatrix =>
      match Bellatrix v ?> block.Message ?> block.Body with
      | None => (None, Some go.ErrDataMissing)
      | Some body =>
          (wrap_each zeroVersionedAttestation
             (λ attestation,
                {| AttVersion := DataVersionBellatrix; AttBellatrix := attestation;
                   AttCapella := None; AttDeneb := None; AttElectra := None |})
             (block.Attestations body), None)
      end
  | DataVersionCapella =>
      match Capella v ?> block.Message ?> block.Body with
      | None => (None, Some go.ErrDataMissing)
      | Some body =>
          (wrap_each zeroVersionedAttestation
             (λ attestation,
                {| AttVersion := DataVersionCapella; AttBellatrix := None;
                   AttCapella := attestation; AttDeneb := None; AttElectra := None |})
             (block.Attestations body), None)
      end
  | DataVersionDeneb =>
      match Deneb v ?> block.Message ?> block.Body with
      | None => (None, Some go.ErrDataMissing)
      | Some body =>
          (wrap_each zeroVersionedAttestation
             (λ attestation,
                {| AttVersion := DataVersionDeneb; AttBellatrix := None;
                   AttCapella := None; AttDeneb := attestation; AttElectra := None |})
             (block.Attestations body), None)
      end
  | DataVersionElectra =>
      match Electra v ?> block.Message ?> block.Body with
      | None => (None, Some go.ErrDataMissing)
      | Some body =>
          (wrap_each zeroVersionedAttestation
             (λ attestation,
                {| AttVersion := DataVersionElectra; AttBellatrix := None;
                   AttCapella := None; AttDeneb := None; AttElectra := attestation |})
             (block.Attestations body), None)
      end
  | DataVersionOther _ => (None, Some go.ErrUnsupportedVersion)
  end.

(** [Root] returns the root of the beacon block. *)
Definition Root (v : VersionedBlockRequest) : phase0.Root * option go.error :=
  match Version v with
  | DataVersionBellatrix =>
      match Bellatrix v ?> block.Message with
      | None => (phase0.zeroRoot, Some go.ErrDataMissing)
      | Some message => bellatrix_BeaconBlock_HashTreeRoot message
      end
  | DataVersionCapella =>
      match Capella v ?> block.Message with
      | None => (phase0.zeroRoot, Some go.ErrDataMissing)
      | Some message => capella_BeaconBlock_HashTreeRoot message
      end
  | DataVersionDeneb =>
      match Deneb v ?> block.Message with
      | None => (phase0.zeroRoot, Some go.ErrDataMissing)
      | Some message => deneb_BeaconBlock_HashTreeRoot message
      end
  | DataVersionElectra =>
      match Electra v ?> block.Message with
      | None => (phase0.zeroRoot, Some go.ErrDataMissing)
      | Some message => electra_BeaconBlock_HashTreeRoot message
      end
  | DataVersionOther _ => (phase0.zeroRoot, Some go.ErrUnsupportedVersion)
  end.

(** [BodyRoot] returns the body root of the beacon block. *)
Definition BodyRoot (v : VersionedBlockRequest) : phase0.Root * option go.error :=
  match Version v with
  | DataVersionBellatrix =>
      match Bellatrix v ?> block.Message ?> block.Body with
      | None => (phase0.zeroRoot, Some go.ErrDataMissing)
      | Some body => bellatrix_BeaconBlockBody_HashTreeRoot body
      end
  | DataVersionCapella =>
      match Capella v ?> block.Message ?> block.Body with
      | None => (phase0.zeroRoot, Some go.ErrDataMissing)
      | Some body => capella_BeaconBlockBody_HashTreeRoot body
      end
  | DataVersionDeneb =>
      match Deneb v ?> block.Message ?> block.Body with
      | None => (phase0.zeroRoot, Some go.ErrDataMissing)
      | Some body => deneb_BeaconBlockBody_HashTreeRoot body
      end
  | DataVersionElectra =>
      match Electra v ?> block.Message ?> block.Body with
      | None => (phase0.zeroRoot, Some go.ErrDataMissing)
      | Some body => electra_BeaconBlockBody_HashTreeRoot body
      end
  | DataVersionOther _ => (phase0.zeroRoot, Some go.ErrUnsupportedVersion)
  end.

(** [ParentRoot] returns the parent root of the beacon block. *)
Definition ParentRoot (v : VersionedBlockRequest) : phase0.Root * option go.error :=
  match Version v with
  | DataVersionBellatrix =>
      match Bellatrix v ?> block.Message with
      | None => (phase0.zeroRoot, Some go.ErrDataMissing)
      | Some message => (block.ParentRoot message, None)
      end
  | DataVersionCapella =>
      match Capella v ?> block.Message with
      | None => (phase0.zeroRoot, Some go.ErrDataMissing)
      | Some message => (block.ParentRoot message, None)
      end
  | DataVersionDeneb =>
      match Deneb v ?> block.Message with
      | None => (phase0.zeroRoot, Some go.ErrDataMissing)
      | Some message => (block.ParentRoot message, None)
      end
  | DataVersionElectra =>
      match Electra v ?> block.Message with
      | None => (phase0.zeroRoot, Some go.ErrDataMissing)
      | Some message => (block.ParentRoot message, None)
      end
  | DataVersionOther _ => (phase0.zeroRoot, Some go.ErrUnsupportedVersion)
  end.

(** [StateRoot] returns the state root of the beacon block. *)
Definition StateRoot (v : VersionedBlockRequest) : phase0.Root * option go.error :=
  match Version v with
  | DataVersionBellatrix =>
      match Bellatrix v ?> block.Message with
      | None => (phase0.zeroRoot, Some go.ErrDataMissing)
      | Some message => (block.StateRoot message, None)
      end
  | DataVersionCapella =>
      match Capella v ?> block.Message with
      | None => (phase0.zeroRoot, Some go.ErrDataMissing)
      | Some message => (block.StateRoot message, None)
      end
  | DataVersionDeneb =>
      match Deneb v ?> block.Message with
      | None => (phase0.zeroRoot, Some go.ErrDataMissing)
      | Some message => (block.StateRoot message, None)
      end
  | DataVersionElectra =>
      match Electra v ?> block.Message with
      | None => (phase0.zeroRoot, Some go.ErrDataMissing)
      | Some message => (block.StateRoot message, None)
      end
  | DataVersionOther _ => (phase0.zeroRoot, Some go.ErrUnsupportedVersion)
  end.

(** [AttesterSlashings] returns the attester slashings of the beacon block. *)
Definition AttesterSlashings (v : VersionedBlockRequest)
  : go.slice (VersionedAttesterSlashing phase0_AttesterSlashing electra_AttesterSlashing)
    * option go.error :=
  match Version v with
  | DataVersionBellatrix =>
      match Bellatrix v ?> block.Message ?> block.Body with
      | None => (None, Some go.ErrDataMissing)
      | Some body =>
          (wrap_each zeroVersionedAttesterSlashing
             (λ attesterSlashing,
                {| SlVersion := DataVersionBellatrix; SlBellatrix := attesterSlashing;
                   SlCapella := None; SlDeneb := None; SlElectra := None |})
             (block.AttesterSlashings body), None)
      end
  | DataVersionCapella =>
      match Capella v ?> block.Message ?> block.Body with
      | None => (None, Some go.ErrDataMissing)
      | Some body =>
          (wrap_each zeroVersionedAttesterSlashing
             (λ attesterSlashing,
                {| SlVersion := DataVersionCapella; SlBellatrix := None;
                   SlCapella := attesterSlashing; SlDeneb := None; SlElectra := None |})
             (block.AttesterSlashings body), None)
      end
  | DataVersionDeneb =>
      match Deneb v ?> block.Message ?> block.Body with
      | None => (None, Some go.ErrDataMissing)
      | Some body =>
          (wrap_each zeroVersionedAttesterSlashing
             (λ attesterSlashing,
                {| SlVersion := DataVersionDeneb; SlBellatrix := None;
                   SlCapella := None; SlDeneb := attesterSlashing; SlElectra := None |})
             (block.AttesterSlashings body), None)
      end
  | DataVersionElectra =>
      match Electra v ?> block.Message ?> block.Body with
      | None => (None, Some go.ErrDataMissing)
      | Some body =>
          (wrap_each zeroVersionedAttesterSlashing
             (λ attesterSlashing,
                {| SlVersion := DataVersionElectra; SlBellatrix := None;
                   SlCapella := None; SlDeneb := None; SlElectra := attesterSlashing |})
             (block.AttesterSlashings body), None)
      end
  | DataVersionOther _ => (None, Some go.ErrUnsupportedVersion)
  end.

(** [ProposerSlashings] returns the proposer slashings of the beacon block. *)
Definition ProposerSlashings (v : VersionedBlockRequest)
  : go.slice (option phase0_ProposerSlashing) * option go.error :=
  match Version v with
  | DataVersionBellatrix =>
      match Bellatrix v ?> block.Message ?> block.Body with
      | None => (None, Some go.ErrDataMissing)
      | Some body => (block.ProposerSlashings body, None)
      end
  | DataVersionCapella =>
      match Capella v ?> block.Message ?> block.Body with
      | None => (None, Some go.ErrDataMissing)
      | Some body => (block.ProposerSlashings body, None)
      end
  | DataVersionDeneb =>
      match Deneb v ?> block.Message ?> block.Body with
      | None => (None, Some go.ErrDataMissing)
      | Some body => (block.ProposerSlashings body, None)
      end
  | DataVersionElectra =>
      match Electra v ?> block.Message ?> block.Body with
      | None => (None, Some go.ErrDataMissing)
      | Some body => (block.ProposerSlashings body, None)
      end
  | DataVersionOther _ => (None, Some go.ErrUnsupportedVersion)
  end.

(** [SyncAggregate] returns the sync aggregate of the beacon block. *)
Definition SyncAggregate (v : VersionedBlockRequest)
  : option altair_SyncAggregate * option go.error :=
  match Version v with
  | DataVersionBellatrix =>
      match Bellatrix v ?> block.Message ?> block.Body with
      | None => (None, Some go.ErrDataMissing)
      | Some body => (block.SyncAggregate body, None)
      end
  | DataVersionCapella =>
      match Capella v ?> block.Message ?> block.Body with
      | None => (None, Some go.ErrDataMissing)
      | Some body => (block.SyncAggregate body, None)
      end
  | DataVersionDeneb =>
      match Deneb v ?> block.Message ?> block.Body with
      | None => (None, Some go.ErrDataMissing)
      | Some body => (block.SyncAggregate body, None)
      end
  | DataVersionElectra =>
      match Electra v ?> block.Message ?> block.Body with
      | None => (None, Some go.ErrDataMissing)
      | Some body => (block.SyncAggregate body, None)
      end
  | DataVersionOther _ => (None, Some go.ErrUnsupportedVersion)
  end.

(** [String] returns a string version of the structure. *)
Definition String (v : VersionedBlockRequest) : string :=
  match Version v with
  | DataVersionBellatrix =>
      match Bellatrix v with
      | None => ""
      | Some signed => bellatrix_SignedBeaconBlock_String signed
      end
  | DataVersionCapella =>
      match Capella v with
      | None => ""
      | Some signed => capella_SignedBeaconBlock_String signed
      end
  | DataVersionDeneb =>
      match Deneb v with
      | None => ""
      | Some signed => deneb_SignedBeaconBlock_String signed
      end
  | DataVersionElectra =>
      match Electra v with
      | None => ""
      | Some signed => electra_SignedBeaconBlock_String signed
      end
  | DataVersionOther _ => "unsupported version"
  end.

(** The three situations [String] tells apart, in the words of its
    description: the tag is known and its slot is nil; the tag is known,
    its slot is populated and [str] is the payload's own string form. *)
Inductive slot_nil (v : VersionedBlockRequest) : Prop :=
| slot_nil_bellatrix :
    Version v = DataVersionBellatrix → Bellatrix v = None → slot_nil v
| slot_nil_capella :
    Version v = DataVersionCapella → Capella v = None → slot_nil v
| slot_nil_deneb :
    Version v = DataVersionDeneb → Deneb v = None → slot_nil v
| slot_nil_electra :
    Version v = DataVersionElectra → Electra v = None → slot_nil v.

Inductive slot_string (v : VersionedBlockRequest) : string → Prop :=
| slot_string_bellatrix signed :
    Version v = DataVersionBellatrix → Bellatrix v = Some signed →
    slot_string v (bellatrix_SignedBeaconBlock_String signed)
| slot_string_capella signed :
    Version v = DataVersionCapella → Capella v = Some signed →
    slot_string v (capella_SignedBeaconBlock_String signed)
| slot_string_deneb signed :
    Version v = DataVersionDeneb → Deneb v = Some signed →
    slot_string v (deneb_SignedBeaconBlock_String signed)
| slot_string_electra signed :
    Version v = DataVersionElectra → Electra v = Some signed →
    slot_string v (electra_SignedBeaconBlock_String signed).

(** A successful collection result: a non-nil slice as long as the
    source, whose element at every index wraps the source element at that
    index. *)
Definition wrapped_in_order {A B} (wrap : A → B) (src : go.slice A)
    (r : go.slice B * option go.error) : Prop :=
  ∃ out, r = (Some out, None) ∧ length out = go.len src ∧
         ∀ i a, go.elems src !! i = Some a → out !! i = Some (wrap a).

(** What [ExecutionBlockHash] owes for a slot of a known tag: the error
    is [ErrDataMissing] exactly when a link down to the execution payload
    is missing, the block hash comes back with a nil error when none is,
    and a failure carries the zero hash. *)
Definition hash_or_data_missing {A S P G}
    (slot : option (block.SignedBeaconBlock A S P G))
    (r : phase0.Hash32 * option go.error) : Prop :=
  (r.2 = Some go.ErrDataMissing ↔ block.execution_payload_missing slot) ∧
  (∀ payload, block.execution_payload_present slot payload →
              r = (block.BlockHash payload, None)) ∧
  (r.2 ≠ None → r.1 = phase0.zeroHash32).

End Accessors.

Arguments VersionedBlockRequest : clear implicits.
Arguments mkVersionedBlockRequest {_ _ _ _ _ _}.

End api.

(** ** Package bytes *)

Module bytes.

(** [[]byte] values are taken by content: a nil byte slice is the empty
    content. *)

(** [bytes.HasPrefix(s, prefix)]. *)
Fixpoint HasPrefix (s prefix : list byte) {struct prefix} : bool :=
  match prefix, s with
  | [], _ => true
  | _ :: _, [] => false
  | p :: prefix', c :: s' => Byte.eqb p c && HasPrefix s' prefix'
  end.

(** The scan of [bytes.ReplaceAll], for a non-empty [old]: occurrences are
    taken leftmost first and do not overlap; [skip] counts the bytes of an
    occurrence already replaced that are still to be passed over. *)
Fixpoint replace_scan (old new : list byte) (skip : nat) (s : list byte) : list byte :=
  match s with
  | [] => []
  | c :: rest =>
      match skip with
      | S k => replace_scan old new k rest
      | O =>
          if HasPrefix s old
          then new ++ replace_scan old new (length old - 1) rest
          else c :: replace_scan old new 0 rest
      end
  end.

(** [bytes.ReplaceAll(s, old, new)], [old] non-empty as at its call here. *)
Definition ReplaceAll (s old new : list byte) : list byte :=
  replace_scan old new 0 s.

End bytes.

(** ** Package api/v1/electra: the YAML codec of [BlockContents] *)

Module apiv1electra.

(** [yaml.EncodeOption] of github.com/goccy/go-yaml, as far as it is used. *)
Inductive EncodeOption : Type :=
| Flow (isFlowStyle : bool).

Section Codec.
(** [electra.BeaconBlock], [deneb.KZGProof] and [deneb.Blob] are opaque. *)
Context {electra_BeaconBlock deneb_KZGProof deneb_Blob : Type}.

(** [BlockContents], with the three fields [MarshalYAML] copies. *)
Record BlockContents : Type := mkBlockContents {
  Block : option electra_BeaconBlock;
  KZGProofs : go.slice deneb_KZGProof;
  Blobs : go.slice deneb_Blob
}.

(** [blockContentsYAML] is the spec representation of the struct; its fields
    [Block], [KZGProofs] and [Blobs] take the prefix [y]. *)
Record blockContentsYAML : Type := mkBlockContentsYAML {
  yBlock : option electra_BeaconBlock;
  yKZGProofs : go.slice deneb_KZGProof;
  yBlobs : go.slice deneb_Blob
}.

(** What a serializer sees of a [blockContentsYAML] by reflection: its
    fields in declaration order, each with the key of its [yaml:] tag. *)
Inductive yamlField : Type :=
| FieldBlock (block : option electra_BeaconBlock)
| FieldKZGProofs (proofs : go.slice deneb_KZGProof)
| FieldBlobs (blobs : go.slice deneb_Blob).

Definition blockContentsYAML_fields (s : blockContentsYAML)
  : list (string * yamlField) :=
  [ ("block", FieldBlock (yBlock s));
    ("kzg_proofs", FieldKZGProofs (yKZGProofs s));
    ("blobs", FieldBlobs (yBlobs s)) ].

(** The top-level keys of the YAML form of a [BlockContents]. *)
Definition yaml_keys (b : BlockContents) : list string :=
  (blockContentsYAML_fields
     {| yBlock := Block b; yKZGProofs := KZGProofs b; yBlobs := Blobs b |}).*1.

(** The collaborators: the YAML serializer and parser of goccy/go-yaml,
    [json.Marshal], the JSON representation [blockContentsJSON] with its
    zero value, and [BlockContents.UnmarshalJSON], which stores into its
    receiver. *)
Variable yaml_MarshalWithOptions :
  list (string * yamlField) → list EncodeOption → list byte * option go.error.
Variable blockContentsJSON : Type.
Variable zero_blockContentsJSON : blockContentsJSON.
Variable yaml_Unmarshal :
  list byte → blockContentsJSON → blockContentsJSON * option go.error.
Variable json_Marshal : blockContentsJSON → list byte * option go.error.
Variable UnmarshalJSON :
  BlockContents → list byte → BlockContents * option go.error.

(** [MarshalYAML] implements yaml.Marshaler. *)
Definition MarshalYAML (b : BlockContents) : list byte * option go.error :=
  let '(yamlBytes, err) :=
    yaml_MarshalWithOptions
      (blockContentsYAML_fields
         {| yBlock := Block b; yKZGProofs := KZGProofs b; yBlobs := Blobs b |})
      [Flow true] in
  match err with
  | Some err => ([], Some err)
  | None => (bytes.ReplaceAll yamlBytes [x22] [x27], None)
  end.

(** [UnmarshalYAML] implements yaml.Unmarshaler.  The receiver goes in and
    comes out; it is untouched unless [UnmarshalJSON] is reached. *)
Definition UnmarshalYAML (b : BlockContents) (input : list byte)
  : BlockContents * option go.error :=
  let '(unmarshaled, err) := yaml_Unmarshal input zero_blockContentsJSON in
  match err with
  | Some err => (b, Some (go.Wrap err "failed to unmarshal YAML"))
  | None =>
      let '(marshaled, err) := json_Marshal unmarshaled in
      match err with
      | Some err => (b, Some (go.Wrap err "failed to marshal JSON"))
      | None => UnmarshalJSON b marshaled
      end
  end.

End Codec.

Arguments BlockContents : clear implicits.
Arguments blockContentsYAML : clear implicits.
Arguments yamlField : clear implicits.
Arguments mkBlockContents {_ _ _}.

End apiv1electra.

(** ** Sample values

    Concrete requests and block contents on which the properties below are
    exercised.  Sub-items are numbers; Electra's are booleans. *)

Module sample.
Import spec.

Definition hash : phase0.Hash32 := replicate 32 xab.
Definition parent : phase0.Root := replicate 32 x01.
Definition state : phase0.Root := replicate 32 x02.

Definition body0 : block.BeaconBlockBody nat nat nat nat :=
  {| block.ProposerSlashings := None;
     block.AttesterSlashings := Some [Some 7];
     block.Attestations := Some [Some 1; None; Some 3];
     block.SyncAggregate := None;
     block.ExecutionPayload := Some {| block.BlockHash := hash |} |}.

Definition bodyE : block.BeaconBlockBody bool bool nat nat :=
  {| block.ProposerSlashings := Some [Some 4];
     block.AttesterSlashings := None;
     block.Attestations := Some [Some true; Some false];
     block.SyncAggregate := Some 9;
     block.ExecutionPayload := Some {| block.BlockHash := hash |} |}.

Definition message0 (body : option (block.BeaconBlockBody nat nat nat nat))
  : block.BeaconBlock nat nat nat nat :=
  {| block.Slot := 12345%Z; block.ParentRoot := parent; block.StateRoot := state;
     block.Body := body |}.

Definition messageE : block.BeaconBlock bool bool nat nat :=
  {| block.Slot := 12345%Z; block.ParentRoot := parent; block.StateRoot := state;
     block.Body := Some bodyE |}.

Definition signed0 : block.SignedBeaconBlock nat nat nat nat :=
  {| block.Message := Some (message0 (Some body0)) |}.

(** A signed block whose message has no body. *)
Definition signed_no_body : block.SignedBeaconBlock nat nat nat nat :=
  {| block.Message := Some (message0 None) |}.

Definition signedE : block.SignedBeaconBlock bool bool nat nat :=
  {| block.Message := Some messageE |}.

Abbreviation Request := (api.VersionedBlockRequest nat bool nat bool nat nat).

Definition bellatrix : Request :=
  api.mkVersionedBlockRequest DataVersionBellatrix (Some signed0) None None None.
Definition bellatrix_no_body : Request :=
  api.mkVersionedBlockRequest DataVersionBellatrix (Some signed_no_body) None None None.
Definition capella : Request :=
  api.mkVersionedBlockRequest DataVersionCapella None (Some signed0) None None.
Definition deneb : Request :=
  api.mkVersionedBlockRequest DataVersionDeneb None None (Some signed0) None.
Definition electra : Request :=
  api.mkVersionedBlockRequest DataVersionElectra None None None (Some signedE).
Definition capella_empty : Request :=
  api.mkVersionedBlockRequest DataVersionCapella None None None None.

(** A request with a tag outside the four and every slot populated. *)
Definition unsupported : Request :=
  api.mkVersionedBlockRequest (DataVersionOther 0)
    (Some signed0) (Some signed0) (Some signed0) (Some signedE).

(** Stand-ins for the collaborators of the accessors. *)
Definition root_of {T} (_ : T) : phase0.Root * option go.error := (state, None).
Definition string_of {T} (_ : T) : string := "{message: {slot: 12345}}".

(** Block contents: the block is its slot number, proofs and blobs are
    numbers. *)
Abbreviation Contents := (apiv1electra.BlockContents Z nat nat).

Definition contents : Contents :=
  apiv1electra.mkBlockContents (Some 12345%Z) (Some [1]) (Some [2]).
Definition no_contents : Contents := apiv1electra.mkBlockContents None None None.

(** Stand-ins for the serializers.  [encode_ok] emits the five bytes of an
    opening brace, a double-quoted b and a closing brace; [parse] fails on
    the empty input and otherwise yields the length of its input as the JSON
    representation; [reencode] fails on 1 and otherwise emits the four bytes
    of null; [decode] stores a block whose slot is the length of the JSON. *)
Definition encode_ok
    (_ : list (string * apiv1electra.yamlField Z nat nat))
    (_ : list apiv1electra.EncodeOption) : list byte * option go.error :=
  ([x7b; x22; x62; x22; x7d], None).
Definition encode_fail
    (_ : list (string * apiv1electra.yamlField Z nat nat))
    (_ : list apiv1electra.EncodeOption) : list byte * option go.error :=
  ([], Some (go.Foreign "cannot encode")).
Definition parse (input : list byte) (into : nat) : nat * option go.error :=
  match input with
  | [] => (into, Some (go.Foreign "unexpected end of input"))
  | _ => (length input, None)
  end.
Definition reencode (unmarshaled : nat) : list byte * option go.error :=
  match unmarshaled with
  | 1 => ([], Some (go.Foreign "unsupported value"))
  | _ => ([x6e; x75; x6c; x6c], None)
  end.
Definition decode (b : Contents) (input : list byte) : Contents * option go.error :=
  (apiv1electra.mkBlockContents (Some (Z.of_nat (length input)))
     (apiv1electra.KZGProofs b) (apiv1electra.Blobs b), None).

End sample.

(** ** What the accessors owe a payload slot

    Further properties of the accessors are stated tag by tag; these
    predicates hold what is the same for the four tags. *)

Module outcome.
Import spec.

Section Slotwise.
Context {A S P G : Type}.
Implicit Types (slot : option (block.SignedBeaconBlock A S P G)).

(** The results of [Slot], [ParentRoot] and [StateRoot] are the zero value
    with [ErrDataMissing] exactly when the payload or its message is
    missing. *)
Definition scalars_fail_iff_message_missing slot
    (slot_result : phase0.Slot * option go.error)
    (parent_result state_result : phase0.Root * option go.error) : Prop :=
  (block.message_missing slot ↔ slot_result = (0%Z, Some go.ErrDataMissing)) ∧
  (block.message_missing slot
   ↔ parent_result = (phase0.zeroRoot, Some go.ErrDataMissing)) ∧
  (block.message_missing slot
   ↔ state_result = (phase0.zeroRoot, Some go.ErrDataMissing)).

(** The results of the four accessors that read the body are nil with
    [ErrDataMissing] exactly when the payload, its message or the body is
    missing. *)
Definition body_reads_fail_iff_body_missing {W1 W2} slot
    (attestations_result : go.slice W1 * option go.error)
    (attester_slashings_result : go.slice W2 * option go.error)
    (proposer_slashings_result : go.slice (option P) * option go.error)
    (sync_aggregate_result : option G * option go.error) : Prop :=
  (block.body_missing slot ↔ attestations_result = (None, Some go.ErrDataMissing)) ∧
  (block.body_missing slot
   ↔ attester_slashings_result = (None, Some go.ErrDataMissing)) ∧
  (block.body_missing slot
   ↔ proposer_slashings_result = (None, Some go.ErrDataMissing)) ∧
  (block.body_missing slot ↔ sync_aggregate_result = (None, Some go.ErrDataMissing)).

(** The results of [Root] and [BodyRoot]: the zero root with
    [ErrDataMissing] when the message, respectively the body, is missing, and
    otherwise whatever the tree hash of the message, respectively of the
    body, returns, value and error alike. *)
Definition roots_hashed_or_data_missing slot
    (hash_message : block.BeaconBlock A S P G → phase0.Root * option go.error)
    (hash_body : block.BeaconBlockBody A S P G → phase0.Root * option go.error)
    (root_result body_root_result : phase0.Root * option go.error) : Prop :=
  (block.message_missing slot →
   root_result = (phase0.zeroRoot, Some go.ErrDataMissing)) ∧
  (∀ message, block.message_present slot message →
              root_result = hash_message message) ∧
  (block.body_missing slot →
   body_root_result = (phase0.zeroRoot, Some go.ErrDataMissing)) ∧
  (∀ body, block.body_present slot body → body_root_result = hash_body body).
End Slotwise.

(** A successful collection result from which the source is read back: the
    [field] of its elements, in order, are the elements of the source, and
    every element is [rebuilt] from that field alone. *)
Definition read_back {W T} (field : W → option T) (rebuilt : option T → W)
    (src : go.slice (option T)) (r : go.slice W * option go.error) : Prop :=
  ∃ out, r = (Some out, None) ∧ field <$> out = go.elems src ∧
         Forall (λ w, w = rebuilt (field w)) out.

(** A result that is a success, or the zero value with one of the two
    errors of package api. *)
Definition value_or_sentinel {T} (zero : T) (r : T * option go.error) : Prop :=
  r.2 = None ∨ r = (zero, Some go.ErrDataMissing)
  ∨ r = (zero, Some go.ErrUnsupportedVersion).

Section Agreement.
Context {phase0_Attestation electra_Attestation : Type}.
Context {phase0_AttesterSlashing electra_AttesterSlashing : Type}.
Context {phase0_ProposerSlashing altair_SyncAggregate : Type}.

Local Abbreviation Request :=
  (api.VersionedBlockRequest phase0_Attestation electra_Attestation
     phase0_AttesterSlashing electra_AttesterSlashing
     phase0_ProposerSlashing altair_SyncAggregate).

Variables message_root0 message_root1 message_root2 :
  block.BeaconBlock phase0_Attestation phase0_AttesterSlashing
    phase0_ProposerSlashing altair_SyncAggregate → phase0.Root * option go.error.
Variable message_rootE :
  block.BeaconBlock electra_Attestation electra_AttesterSlashing
    phase0_ProposerSlashing altair_SyncAggregate → phase0.Root * option go.error.
Variables body_root0 body_root1 body_root2 :
  block.BeaconBlockBody phase0_Attestation phase0_AttesterSlashing
    phase0_ProposerSlashing altair_SyncAggregate → phase0.Root * option go.error.
Variable body_rootE :
  block.BeaconBlockBody electra_Attestation electra_AttesterSlashing
    phase0_ProposerSlashing altair_SyncAggregate → phase0.Root * option go.error.
Variables string0 string1 string2 :
  block.SignedBeaconBlock phase0_Attestation phase0_AttesterSlashing
    phase0_ProposerSlashing altair_SyncAggregate → string.
Variable stringE :
  block.SignedBeaconBlock electra_Attestation electra_AttesterSlashing
    phase0_ProposerSlashing altair_SyncAggregate → string.

(** Two requests on which each of the eleven accessors returns the same. *)
Definition same_results (v v' : Request) : Prop :=
  api.Slot v = api.Slot v' ∧
  api.ExecutionBlockHash v = api.ExecutionBlockHash v' ∧
  api.Attestations v = api.Attestations v' ∧
  api.Root message_root0 message_root1 message_root2 message_rootE v
  = api.Root message_root0 message_root1 message_root2 message_rootE v' ∧
  api.BodyRoot body_root0 body_root1 body_root2 body_rootE v
  = api.BodyRoot body_root0 body_root1 body_root2 body_rootE v' ∧
  api.ParentRoot v = api.ParentRoot v' ∧
  api.StateRoot v = api.StateRoot v' ∧
  api.AttesterSlashings v = api.AttesterSlashings v' ∧
  api.ProposerSlashings v = api.ProposerSlashings v' ∧
  api.SyncAggregate v = api.SyncAggregate v' ∧
  api.String string0 string1 string2 stringE v
  = api.String string0 string1 string2 stringE v'.
End Agreement.

End outcome.

(** More sample values: a request tagged Bellatrix whose Bellatrix slot is
    nil while the three other slots are populated, and a request tagged
    Capella whose payload has no message. *)

Module sample2.
Import spec.

Definition bellatrix_wrong_slot : sample.Request :=
  api.mkVersionedBlockRequest DataVersionBellatrix
    None (Some sample.signed0) (Some sample.signed0) (Some sample.signedE).

Definition bellatrix_crowded : sample.Request :=
  api.mkVersionedBlockRequest DataVersionBellatrix
    (Some sample.signed0) (Some sample.signed_no_body) None (Some sample.signedE).

Definition signed_no_message : block.SignedBeaconBlock nat nat nat nat :=
  {| block.Message := None |}.

Definition capella_no_message : sample.Request :=
  api.mkVersionedBlockRequest DataVersionCapella None (Some signed_no_message) None None.

(** A body whose collections are all nil. *)
Definition body_nil : block.BeaconBlockBody nat nat nat nat :=
  {| block.ProposerSlashings := None; block.AttesterSlashings := None;
     block.Attestations := None; block.SyncAggregate := None;
     block.ExecutionPayload := None |}.

Definition deneb_nil_collections : sample.Request :=
  api.mkVersionedBlockRequest DataVersionDeneb None None
    (Some {| block.Message := Some (sample.message0 (Some body_nil)) |}) None.

(** A tree hash that fails. *)
Definition root_fails {T} (_ : T) : phase0.Root * option go.error :=
  (phase0.zeroRoot, Some (go.Foreign "list too long")).

(** A serializer whose output holds no double quote. *)
Definition encode_plain
    (_ : list (string * apiv1electra.yamlField Z nat nat))
    (_ : list apiv1electra.EncodeOption) : list byte * option go.error :=
  ([x7b; x27; x62; x27; x7d], None).

(** A JSON decoder that fails. *)
Definition decode_fails (b : sample.Contents) (_ : list byte)
  : sample.Contents * option go.error :=
  (b, Some (go.Foreign "block missing")).

End sample2.

(** * Properties of the accessors *)

Section AccessorFacts.
Import spec.
Context {phase0_Attestation electra_Attestation : Type}.
Context {phase0_AttesterSlashing electra_AttesterSlashing : Type}.
Context {phase0_ProposerSlashing altair_SyncAggregate : Type}.

Local Abbreviation Request :=
  (api.VersionedBlockRequest phase0_Attestation electra_Attestation
     phase0_AttesterSlashing electra_AttesterSlashing
     phase0_ProposerSlashing altair_SyncAggregate).

Implicit Types (v : Request).

(** Following a chain of links that are there. *)
Lemma deref_message {A S P G} (slot : option (block.SignedBeaconBlock A S P G)) message :
  block.message_present slot message → slot ?> block.Message = Some message.
Proof. intros (signed & -> & Hm). exact Hm. Qed.

Lemma deref_body {A S P G} (slot : option (block.SignedBeaconBlock A S P G)) body :
  block.body_present slot body → slot ?> block.Message ?> block.Body = Some body.
Proof. intros (message & Hm & Hb). rewrite (deref_message _ _ Hm). exact Hb. Qed.

Lemma deref_execution_payload {A S P G}
    (slot : option (block.SignedBeaconBlock A S P G)) payload :
  block.execution_payload_present slot payload →
  slot ?> block.Message ?> block.Body ?> block.ExecutionPayload = Some payload.
Proof. intros (body & Hb & He). rewrite (deref_body _ _ Hb). exact He. Qed.

(** A chain breaks exactly when a link is missing. *)
Lemma deref_message_None {A S P G} (slot : option (block.SignedBeaconBlock A S P G)) :
  slot ?> block.Message = None ↔ block.message_missing slot.
Proof.
  unfold block.message_missing. split.
  - destruct slot as [signed|]; simpl; [|by left]. intros Hm. right. by exists signed.
  - intros [-> | (signed & -> & Hm)]; [done | exact Hm].
Qed.

Lemma deref_body_None {A S P G} (slot : option (block.SignedBeaconBlock A S P G)) :
  slot ?> block.Message ?> block.Body = None ↔ block.body_missing slot.
Proof.
  unfold block.body_missing. rewrite <- deref_message_None. split.
  - destruct (slot ?> block.Message) as [message|] eqn:Hm; simpl; [|by left].
    intros Hb. right. exists message. split; [|done].
    destruct slot as [signed|]; [|done]. by exists signed.
  - intros [-> | (message & Hm & Hb)]; [done|].
    rewrite (deref_message _ _ Hm). exact Hb.
Qed.

Lemma deref_execution_payload_None {A S P G}
    (slot : option (block.SignedBeaconBlock A S P G)) :
  slot ?> block.Message ?> block.Body ?> block.ExecutionPayload = None
  ↔ block.execution_payload_missing slot.
Proof.
  unfold block.execution_payload_missing. rewrite <- deref_body_None. split.
  - destruct (slot ?> block.Message ?> block.Body) as [body|] eqn:Hb; simpl; [|by left].
    intros He. right. exists body. split; [|done].
    destruct slot as [signed|]; [|done]. simpl in Hb.
    destruct (block.Message signed) as [message|] eqn:Hm; [|done].
    exists message. split; [by exists signed | done].
  - intros [-> | (body & Hb & He)]; [done|].
    rewrite (deref_body _ _ Hb). exact He.
Qed.

(** C1.  When the version tag is none of Bellatrix, Capella, Deneb and
    Electra, each of the ten accessors returns its zero value together with
    [ErrUnsupportedVersion], whatever the four payload slots hold: the
    result is the same for every content of the slots, and the error is
    never nil. *)
Theorem unsupported_version_every_accessor
    (block_root0 block_root1 block_root2 : _ → phase0.Root * option go.error)
    (block_rootE : _ → phase0.Root * option go.error)
    (body_root0 body_root1 body_root2 : _ → phase0.Root * option go.error)
    (body_rootE : _ → phase0.Root * option go.error)
    (version : DataVersion) bellatrix capella deneb electra :
  version ≠ DataVersionBellatrix → version ≠ DataVersionCapella →
  version ≠ DataVersionDeneb → version ≠ DataVersionElectra →
  let v : Request :=
    api.mkVersionedBlockRequest version bellatrix capella deneb electra in
  api.Slot v = (0%Z, Some go.ErrUnsupportedVersion) ∧
  api.ExecutionBlockHash v = (phase0.zeroHash32, Some go.ErrUnsupportedVersion) ∧
  api.Attestations v = (None, Some go.ErrUnsupportedVersion) ∧
  api.Root block_root0 block_root1 block_root2 block_rootE v
    = (phase0.zeroRoot, Some go.ErrUnsupportedVersion) ∧
  api.BodyRoot body_root0 body_root1 body_root2 body_rootE v
    = (phase0.zeroRoot, Some go.ErrUnsupportedVersion) ∧
  api.ParentRoot v = (phase0.zeroRoot, Some go.ErrUnsupportedVersion) ∧
  api.StateRoot v = (phase0.zeroRoot, Some go.ErrUnsupportedVersion) ∧
  api.AttesterSlashings v = (None, Some go.ErrUnsupportedVersion) ∧
  api.ProposerSlashings v = (None, Some go.ErrUnsupportedVersion) ∧
  api.SyncAggregate v = (None, Some go.ErrUnsupportedVersion).
Proof.
  intros HB HC HD HE. destruct version; try congruence.
  repeat split.
Qed.

(** C2.  With a known version tag whose payload slot and its message are
    both there, [Slot], [ParentRoot] and [StateRoot] return the message's
    slot, parent root and state root, each with a nil error. *)
Theorem scalar_accessors_return_message_fields v :
  (api.Version v = DataVersionBellatrix →
   ∀ message, block.message_present (api.Bellatrix v) message →
     api.Slot v = (block.Slot message, None) ∧
     api.ParentRoot v = (block.ParentRoot message, None) ∧
     api.StateRoot v = (block.StateRoot message, None)) ∧
  (api.Version v = DataVersionCapella →
   ∀ message, block.message_present (api.Capella v) message →
     api.Slot v = (block.Slot message, None) ∧
     api.ParentRoot v = (block.ParentRoot message, None) ∧
     api.StateRoot v = (block.StateRoot message, None)) ∧
  (api.Version v = DataVersionDeneb →
   ∀ message, block.message_present (api.Deneb v) message →
     api.Slot v = (block.Slot message, None) ∧
     api.ParentRoot v = (block.ParentRoot message, None) ∧
     api.StateRoot v = (block.StateRoot message, None)) ∧
  (api.Version v = DataVersionElectra →
   ∀ message, block.message_present (api.Electra v) message →
     api.Slot v = (block.Slot message, None) ∧
     api.ParentRoot v = (block.ParentRoot message, None) ∧
     api.StateRoot v = (block.StateRoot message, None)).
Proof.
  split; [|split; [|split]]; intros Htag message Hm;
    unfold api.Slot, api.ParentRoot, api.StateRoot;
    rewrite Htag, (deref_message _ _ Hm); auto.
Qed.

(** One branch of [ExecutionBlockHash], over the chain of its guard. *)
Lemma hash_branch {A S P G} (slot : option (block.SignedBeaconBlock A S P G)) :
  api.hash_or_data_missing slot
    match slot ?> block.Message ?> block.Body ?> block.ExecutionPayload with
    | None => (phase0.zeroHash32, Some go.ErrDataMissing)
    | Some payload => (block.BlockHash payload, None)
    end.
Proof.
  unfold api.hash_or_data_missing.
  rewrite <- deref_execution_payload_None.
  split; [|split].
  - destruct (slot ?> block.Message ?> block.Body ?> block.ExecutionPayload);
      simpl; split; congruence.
  - intros payload Hp. by rewrite (deref_execution_payload _ _ Hp).
  - destruct (slot ?> block.Message ?> block.Body ?> block.ExecutionPayload);
      simpl; congruence.
Qed.

(** C3.  With a known version tag, [ExecutionBlockHash] returns
    [ErrDataMissing] if and only if the payload, its message, the message's
    body or the body's execution payload is nil on the tag's slot; with all
    four there it returns the execution payload's block hash and a nil
    error; and whenever it fails the hash it returns is the zero hash. *)
Theorem ExecutionBlockHash_data_missing_iff v :
  (api.Version v = DataVersionBellatrix →
   api.hash_or_data_missing (api.Bellatrix v) (api.ExecutionBlockHash v)) ∧
  (api.Version v = DataVersionCapella →
   api.hash_or_data_missing (api.Capella v) (api.ExecutionBlockHash v)) ∧
  (api.Version v = DataVersionDeneb →
   api.hash_or_data_missing (api.Deneb v) (api.ExecutionBlockHash v)) ∧
  (api.Version v = DataVersionElectra →
   api.hash_or_data_missing (api.Electra v) (api.ExecutionBlockHash v)).
Proof.
  split; [|split; [|split]]; intros Htag;
    unfold api.ExecutionBlockHash; rewrite Htag; apply hash_branch.
Qed.

(** C10.  With a known version tag whose payload, message and body are
    there, [SyncAggregate] returns the body's sync-aggregate pointer and
    [ProposerSlashings] the body's proposer-slashing slice as they are, each
    with a nil error; when the pointer or the slice is itself nil the result
    is nil with a nil error, not [ErrDataMissing]. *)
Theorem body_fields_returned_as_is v :
  let as_is (body_SyncAggregate : option altair_SyncAggregate)
            (body_ProposerSlashings : go.slice (option phase0_ProposerSlashing)) :=
    api.SyncAggregate v = (body_SyncAggregate, None) ∧
    api.ProposerSlashings v = (body_ProposerSlashings, None) ∧
    (body_SyncAggregate = None → api.SyncAggregate v = (None, None)) ∧
    (body_ProposerSlashings = None → api.ProposerSlashings v = (None, None)) in
  (api.Version v = DataVersionBellatrix →
   ∀ body, block.body_present (api.Bellatrix v) body →
     as_is (block.SyncAggregate body) (block.ProposerSlashings body)) ∧
  (api.Version v = DataVersionCapella →
   ∀ body, block.body_present (api.Capella v) body →
     as_is (block.SyncAggregate body) (block.ProposerSlashings body)) ∧
  (api.Version v = DataVersionDeneb →
   ∀ body, block.body_present (api.Deneb v) body →
     as_is (block.SyncAggregate body) (block.ProposerSlashings body)) ∧
  (api.Version v = DataVersionElectra →
   ∀ body, block.body_present (api.Electra v) body →
     as_is (block.SyncAggregate body) (block.ProposerSlashings body)).
Proof.
  cbv zeta.
  split; [|split; [|split]]; intros Htag body Hb;
    unfold api.SyncAggregate, api.ProposerSlashings;
    rewrite Htag, (deref_body _ _ Hb);
    (split; [|split; [|split]]); try intros ->; reflexivity.
Qed.

(** The [range] loop writes at the indexes from [i] on and nowhere else. *)
Lemma range_assign_length {A B} (f : A → B) src : ∀ i dst,
  length (go.range_assign f i src dst) = length dst.
Proof.
  induction src as [|x rest IH]; intros i dst; simpl; [done|].
  by rewrite IH, length_insert.
Qed.

Lemma range_assign_below {A B} (f : A → B) src : ∀ i dst j,
  j < i → go.range_assign f i src dst !! j = dst !! j.
Proof.
  induction src as [|x rest IH]; intros i dst j Hj; simpl; [done|].
  rewrite IH by lia. apply list_lookup_insert_ne. lia.
Qed.

Lemma range_assign_lookup {A B} (f : A → B) src : ∀ i dst k a,
  i + length src ≤ length dst → src !! k = Some a →
  go.range_assign f i src dst !! (i + k) = Some (f a).
Proof.
  induction src as [|x rest IH]; intros i dst k a Hlen Hk; [done|].
  simpl in Hlen. destruct k as [|k]; simpl in *.
  - injection Hk as ->. rewrite Nat.add_0_r, range_assign_below by lia.
    apply list_lookup_insert_eq. lia.
  - replace (i + S k) with (S i + k) by lia.
    apply IH; [rewrite length_insert; lia | done].
Qed.

(** The loop over a slice made to the length of the source is the map. *)
Lemma wrap_each_fmap {A B} (zero : B) (wrap : A → B) (src : go.slice A) :
  api.wrap_each zero wrap src = Some (wrap <$> go.elems src).
Proof.
  unfold api.wrap_each, go.len, go.make. f_equal.
  apply list_eq. intros k. rewrite list_lookup_fmap.
  destruct (go.elems src !! k) as [a|] eqn:Hk; simpl.
  - apply (range_assign_lookup wrap (go.elems src) 0 _ k a); [|done].
    rewrite length_replicate. lia.
  - apply lookup_ge_None. rewrite range_assign_length, length_replicate.
    by apply lookup_ge_None.
Qed.

Lemma wrap_each_in_order {A B} (zero : B) (wrap : A → B) (src : go.slice A) :
  api.wrapped_in_order wrap src (api.wrap_each zero wrap src, None).
Proof.
  exists (wrap <$> go.elems src). rewrite wrap_each_fmap. split; [done|].
  split; [by rewrite length_fmap|].
  intros i a Hi. by rewrite list_lookup_fmap, Hi.
Qed.

(** C4.  With a known version tag: if the payload, its message or the
    message's body is nil on the tag's slot, [Attestations] and
    [AttesterSlashings] return a nil slice with [ErrDataMissing], not a
    successful empty sequence; otherwise each returns, with a nil error, a
    slice built by the call (its elements are of the wrapper type, so it is
    not the body's own collection), as long as the body's collection, whose
    element at every index carries the request's version tag and wraps the
    source element at that index. *)
Theorem collections_wrapped_in_order v :
  (api.Version v = DataVersionBellatrix →
   (block.body_missing (api.Bellatrix v) →
    api.Attestations v = (None, Some go.ErrDataMissing) ∧
    api.AttesterSlashings v = (None, Some go.ErrDataMissing)) ∧
   (∀ body, block.body_present (api.Bellatrix v) body →
    api.wrapped_in_order
      (λ a, {| AttVersion := api.Version v; AttBellatrix := a; AttCapella := None;
               AttDeneb := None; AttElectra := None |})
      (block.Attestations body) (api.Attestations v) ∧
    api.wrapped_in_order
      (λ a, {| SlVersion := api.Version v; SlBellatrix := a; SlCapella := None;
               SlDeneb := None; SlElectra := None |})
      (block.AttesterSlashings body) (api.AttesterSlashings v))) ∧
  (api.Version v = DataVersionCapella →
   (block.body_missing (api.Capella v) →
    api.Attestations v = (None, Some go.ErrDataMissing) ∧
    api.AttesterSlashings v = (None, Some go.ErrDataMissing)) ∧
   (∀ body, block.body_present (api.Capella v) body →
    api.wrapped_in_order
      (λ a, {| AttVersion := api.Version v; AttBellatrix := None; AttCapella := a;
               AttDeneb := None; AttElectra := None |})
      (block.Attestations body) (api.Attestations v) ∧
    api.wrapped_in_order
      (λ a, {| SlVersion := api.Version v; SlBellatrix := None; SlCapella := a;
               SlDeneb := None; SlElectra := None |})
      (block.AttesterSlashings body) (api.AttesterSlashings v))) ∧
  (api.Version v = DataVersionDeneb →
   (block.body_missing (api.Deneb v) →
    api.Attestations v = (None, Some go.ErrDataMissing) ∧
    api.AttesterSlashings v = (None, Some go.ErrDataMissing)) ∧
   (∀ body, block.body_present (api.Deneb v) body →
    api.wrapped_in_order
      (λ a, {| AttVersion := api.Version v; AttBellatrix := None; AttCapella := None;
               AttDeneb := a; AttElectra := None |})
      (block.Attestations body) (api.Attestations v) ∧
    api.wrapped_in_order
      (λ a, {| SlVersion := api.Version v; SlBellatrix := None; SlCapella := None;
               SlDeneb := a; SlElectra := None |})
      (block.AttesterSlashings body) (api.AttesterSlashings v))) ∧
  (api.Version v = DataVersionElectra →
   (block.body_missing (api.Electra v) →
    api.Attestations v = (None, Some go.ErrDataMissing) ∧
    api.AttesterSlashings v = (None, Some go.ErrDataMissing)) ∧
   (∀ body, block.body_present (api.Electra v) body →
    api.wrapped_in_order
      (λ a, {| AttVersion := api.Version v; AttBellatrix := None; AttCapella := None;
               AttDeneb := None; AttElectra := a |})
      (block.Attestations body) (api.Attestations v) ∧
    api.wrapped_in_order
      (λ a, {| SlVersion := api.Version v; SlBellatrix := None; SlCapella := None;
               SlDeneb := None; SlElectra := a |})
      (block.AttesterSlashings body) (api.AttesterSlashings v))).
Proof.
  split; [|split; [|split]]; intros Htag;
    unfold api.Attestations, api.AttesterSlashings; rewrite Htag;
    (split; [intros Hmiss; apply deref_body_None in Hmiss; by rewrite Hmiss
            |intros body Hb; rewrite (deref_body _ _ Hb);
             split; apply wrap_each_in_order]).
Qed.

Section StringForm.
Variables bellatrix_String capella_String deneb_String :
  block.SignedBeaconBlock phase0_Attestation phase0_AttesterSlashing
    phase0_ProposerSlashing altair_SyncAggregate → string.
Variable electra_String :
  block.SignedBeaconBlock electra_Attestation electra_AttesterSlashing
    phase0_ProposerSlashing altair_SyncAggregate → string.

Local Abbreviation String :=
  (api.String bellatrix_String capella_String deneb_String electra_String).
Local Abbreviation slot_string :=
  (api.slot_string bellatrix_String capella_String deneb_String electra_String).

(** Every request is in one of the three situations of [String]. *)
Lemma String_situations v :
  api.slot_nil v ∨ known (api.Version v) = false ∨ ∃ str, slot_string v str.
Proof.
  destruct v as [version b c d e]. destruct version; simpl.
  - destruct b as [signed|] eqn:Hb; [right; right | left].
    + eexists. by eapply api.slot_string_bellatrix.
    + by apply api.slot_nil_bellatrix.
  - destruct c as [signed|] eqn:Hc; [right; right | left].
    + eexists. by eapply api.slot_string_capella.
    + by apply api.slot_nil_capella.
  - destruct d as [signed|] eqn:Hd; [right; right | left].
    + eexists. by eapply api.slot_string_deneb.
    + by apply api.slot_nil_deneb.
  - destruct e as [signed|] eqn:He; [right; right | left].
    + eexists. by eapply api.slot_string_electra.
    + by apply api.slot_nil_electra.
  - right; left; reflexivity.
Qed.

Lemma String_of_slot_nil v : api.slot_nil v → String v = "".
Proof.
  intros H. unfold api.String.
  inversion H as [Htag Hs | Htag Hs | Htag Hs | Htag Hs]; by rewrite Htag, Hs.
Qed.

Lemma String_of_unknown v :
  known (api.Version v) = false → String v = "unsupported version".
Proof. unfold api.String. by destruct (api.Version v). Qed.

Lemma String_of_slot_string v str : slot_string v str → String v = str.
Proof.
  intros H. unfold api.String.
  inversion H as [s Htag Hs | s Htag Hs | s Htag Hs | s Htag Hs];
    by rewrite Htag, Hs.
Qed.


End StringForm.

End AccessorFacts.

(** * Properties of the YAML codec *)

Section CodecFacts.
Import apiv1electra.
Context {electra_BeaconBlock deneb_KZGProof deneb_Blob : Type}.

Local Abbreviation Contents :=
  (BlockContents electra_BeaconBlock deneb_KZGProof deneb_Blob).
Local Abbreviation Field :=
  (yamlField electra_BeaconBlock deneb_KZGProof deneb_Blob).

Implicit Types (b : Contents).

(** Replacing one byte by one byte is a map over the bytes. *)
Lemma ReplaceAll_byte (s : list byte) (old new : byte) :
  bytes.ReplaceAll s [old] [new]
  = (λ c, if Byte.eqb old c then new else c) <$> s.
Proof.
  unfold bytes.ReplaceAll.
  induction s as [|c rest IH]; simpl; [done|].
  rewrite andb_true_r. destruct (Byte.eqb old c); simpl; by rewrite IH.
Qed.

Lemma ReplaceAll_byte_absent (s : list byte) (old new : byte) :
  old ≠ new → old ∉ bytes.ReplaceAll s [old] [new].
Proof.
  intros Hne. rewrite ReplaceAll_byte. intros Hin.
  apply list_elem_of_fmap in Hin as (c & Hc & _).
  destruct (Byte.eqb old c) eqn:E.
  - by subst.
  - apply Byte.eqb_false in E. by subst.
Qed.

(** C7.  [MarshalYAML] hands the three tagged fields of the intermediate
    structure to the serializer with the flow option set.  An error of the
    serializer comes back unchanged.  Otherwise the result has a nil error
    and is the serialized output with every double-quote byte replaced by a
    single-quote byte and every other byte kept, so it holds no
    double-quote byte. *)
Theorem MarshalYAML_flow_then_single_quotes
    (yaml_MarshalWithOptions :
       list (string * Field) → list EncodeOption → list byte * option go.error) b :
  let serialized :=
    yaml_MarshalWithOptions
      (blockContentsYAML_fields
         {| yBlock := Block b; yKZGProofs := KZGProofs b; yBlobs := Blobs b |})
      [Flow true] in
  (∀ err, serialized.2 = Some err →
          MarshalYAML yaml_MarshalWithOptions b = ([], Some err)) ∧
  (serialized.2 = None →
   ∃ out, MarshalYAML yaml_MarshalWithOptions b = (out, None) ∧
          length out = length serialized.1 ∧
          (∀ i c, serialized.1 !! i = Some c →
                  out !! i = Some (if Byte.eqb x22 c then x27 else c)) ∧
          x22 ∉ out).
Proof.
  intros serialized. unfold MarshalYAML. fold serialized.
  destruct serialized as [yamlBytes err]; simpl. split.
  - by intros e ->.
  - intros ->. eexists. split; [reflexivity|].
    split; [by rewrite ReplaceAll_byte, length_fmap|].
    split; [|by apply ReplaceAll_byte_absent].
    intros i c Hi. by rewrite ReplaceAll_byte, list_lookup_fmap, Hi.
Qed.

(** C8.  [UnmarshalYAML] parses its input into a zero [blockContentsJSON],
    the structure of the JSON format.  If the parse fails its error comes
    back wrapped with the label "failed to unmarshal YAML"; otherwise the
    parsed structure is encoded to JSON, and if that fails the error comes
    back wrapped with "failed to marshal JSON"; in both cases the receiver
    is left as it was.  Otherwise the result is that of [UnmarshalJSON] on
    the encoded bytes, its error as [UnmarshalJSON] made it. *)
Theorem UnmarshalYAML_stages
    (blockContentsJSON : Type) (zero_blockContentsJSON : blockContentsJSON)
    (yaml_Unmarshal :
       list byte → blockContentsJSON → blockContentsJSON * option go.error)
    (json_Marshal : blockContentsJSON → list byte * option go.error)
    (UnmarshalJSON : Contents → list byte → Contents * option go.error)
    b (input : list byte) :
  let result :=
    UnmarshalYAML blockContentsJSON zero_blockContentsJSON
      yaml_Unmarshal json_Marshal UnmarshalJSON b input in
  let parsed := yaml_Unmarshal input zero_blockContentsJSON in
  let encoded := json_Marshal parsed.1 in
  (∀ err, parsed.2 = Some err →
          result = (b, Some (go.Wrap err "failed to unmarshal YAML"))) ∧
  (∀ err, parsed.2 = None → encoded.2 = Some err →
          result = (b, Some (go.Wrap err "failed to marshal JSON"))) ∧
  (parsed.2 = None → encoded.2 = None → result = UnmarshalJSON b encoded.1).
Proof.
  intros result parsed encoded. subst result. unfold UnmarshalYAML.
  fold parsed. destruct parsed as [unmarshaled perr] eqn:Hp. simpl in *.
  fold encoded. destruct encoded as [marshaled eerr]. simpl.
  split; [|split].
  - by intros err ->.
  - by intros err -> ->.
  - by intros -> ->.
Qed.

(** C9, as it holds.  The top-level keys of the YAML form are "block",
    "kzg_proofs" (with an underscore) and "blobs", and no other: the one
    call [MarshalYAML] makes to the serializer is on the block under
    "block", the proofs under "kzg_proofs" and the blobs under "blobs", in
    this order, with the flow option. *)
Theorem yaml_fields_block_kzg_proofs_blobs b :
  let fields : list (string * Field) :=
    [ ("block", FieldBlock (Block b));
      ("kzg_proofs", FieldKZGProofs (KZGProofs b));
      ("blobs", FieldBlobs (Blobs b)) ] in
  yaml_keys b = ["block"; "kzg_proofs"; "blobs"] ∧
  ∀ yaml_MarshalWithOptions,
    MarshalYAML yaml_MarshalWithOptions b
    = MarshalYAML (λ _ _, yaml_MarshalWithOptions fields [Flow true]) b.
Proof. split; reflexivity. Qed.

End CodecFacts.

(** C9, as stated, fails: the keys of the sample block contents are not
    "block", "kzg proofs", "blobs"; no field is under the key "kzg proofs"
    (with a space). *)
Lemma yaml_keys_not_kzg_space_proofs :
  apiv1electra.yaml_keys sample.contents ≠ ["block"; "kzg proofs"; "blobs"] ∧
  "kzg proofs" ∉ apiv1electra.yaml_keys sample.contents.
Proof.
  split.
  - discriminate.
  - intros Hin. vm_compute in Hin.
    repeat (apply elem_of_cons in Hin as [Hin | Hin]; [discriminate|]).
    by apply elem_of_nil in Hin.
Qed.

(** * The properties on the sample values *)

Section OnSamples.
Import spec.

Lemma unsupported_version_every_accessor_witness :
  (DataVersionOther 0 ≠ DataVersionBellatrix ∧
   DataVersionOther 0 ≠ DataVersionCapella ∧
   DataVersionOther 0 ≠ DataVersionDeneb ∧
   DataVersionOther 0 ≠ DataVersionElectra) ∧
  api.Slot sample.unsupported = (0%Z, Some go.ErrUnsupportedVersion) ∧
  api.ExecutionBlockHash sample.unsupported
    = (phase0.zeroHash32, Some go.ErrUnsupportedVersion) ∧
  api.Attestations sample.unsupported = (None, Some go.ErrUnsupportedVersion) ∧
  api.Root sample.root_of sample.root_of sample.root_of sample.root_of
    sample.unsupported = (phase0.zeroRoot, Some go.ErrUnsupportedVersion) ∧
  api.BodyRoot sample.root_of sample.root_of sample.root_of sample.root_of
    sample.unsupported = (phase0.zeroRoot, Some go.ErrUnsupportedVersion) ∧
  api.ParentRoot sample.unsupported = (phase0.zeroRoot, Some go.ErrUnsupportedVersion) ∧
  api.StateRoot sample.unsupported = (phase0.zeroRoot, Some go.ErrUnsupportedVersion) ∧
  api.AttesterSlashings sample.unsupported = (None, Some go.ErrUnsupportedVersion) ∧
  api.ProposerSlashings sample.unsupported = (None, Some go.ErrUnsupportedVersion) ∧
  api.SyncAggregate sample.unsupported = (None, Some go.ErrUnsupportedVersion).
Proof.
  assert (HB : DataVersionOther 0 ≠ DataVersionBellatrix) by discriminate.
  assert (HC : DataVersionOther 0 ≠ DataVersionCapella) by discriminate.
  assert (HD : DataVersionOther 0 ≠ DataVersionDeneb) by discriminate.
  assert (HE : DataVersionOther 0 ≠ DataVersionElectra) by discriminate.
  split; [by repeat split|].
  exact (unsupported_version_every_accessor
           sample.root_of sample.root_of sample.root_of sample.root_of
           sample.root_of sample.root_of sample.root_of sample.root_of
           (DataVersionOther 0) (Some sample.signed0) (Some sample.signed0)
           (Some sample.signed0) (Some sample.signedE) HB HC HD HE).
Defined.

Lemma scalar_accessors_return_message_fields_witness :
  (api.Version sample.bellatrix = DataVersionBellatrix ∧
   block.message_present (api.Bellatrix sample.bellatrix)
     (sample.message0 (Some sample.body0)) ∧
   api.Slot sample.bellatrix = (12345%Z, None) ∧
   api.ParentRoot sample.bellatrix = (sample.parent, None) ∧
   api.StateRoot sample.bellatrix = (sample.state, None)) ∧
  (api.Version sample.capella = DataVersionCapella ∧
   block.message_present (api.Capella sample.capella)
     (sample.message0 (Some sample.body0)) ∧
   api.Slot sample.capella = (12345%Z, None) ∧
   api.ParentRoot sample.capella = (sample.parent, None) ∧
   api.StateRoot sample.capella = (sample.state, None)) ∧
  (api.Version sample.deneb = DataVersionDeneb ∧
   block.message_present (api.Deneb sample.deneb)
     (sample.message0 (Some sample.body0)) ∧
   api.Slot sample.deneb = (12345%Z, None) ∧
   api.ParentRoot sample.deneb = (sample.parent, None) ∧
   api.StateRoot sample.deneb = (sample.state, None)) ∧
  (api.Version sample.electra = DataVersionElectra ∧
   block.message_present (api.Electra sample.electra) sample.messageE ∧
   api.Slot sample.electra = (12345%Z, None) ∧
   api.ParentRoot sample.electra = (sample.parent, None) ∧
   api.StateRoot sample.electra = (sample.state, None)).
Proof.
  assert (H0 : ∀ slot, slot = Some sample.signed0 →
               block.message_present slot (sample.message0 (Some sample.body0))).
  { intros slot ->. by exists sample.signed0. }
  assert (HE : block.message_present (Some sample.signedE) sample.messageE).
  { by exists sample.signedE. }
  split; [|split; [|split]]; (split; [reflexivity|]).
  - split; [by apply H0|].
    exact (proj1 (scalar_accessors_return_message_fields sample.bellatrix)
             eq_refl _ (H0 _ eq_refl)).
  - split; [by apply H0|].
    exact (proj1 (proj2 (scalar_accessors_return_message_fields sample.capella))
             eq_refl _ (H0 _ eq_refl)).
  - split; [by apply H0|].
    exact (proj1 (proj2 (proj2 (scalar_accessors_return_message_fields sample.deneb)))
             eq_refl _ (H0 _ eq_refl)).
  - split; [exact HE|].
    exact (proj2 (proj2 (proj2 (scalar_accessors_return_message_fields sample.electra)))
             eq_refl _ HE).
Defined.

Lemma body0_present : ∀ slot, slot = Some sample.signed0 →
  block.body_present slot sample.body0.
Proof.
  intros slot ->. exists (sample.message0 (Some sample.body0)).
  split; [by exists sample.signed0 | reflexivity].
Defined.

Lemma bodyE_present : block.body_present (Some sample.signedE) sample.bodyE.
Proof. exists sample.messageE. split; [by exists sample.signedE | reflexivity]. Defined.

Lemma no_body_missing : block.body_missing (Some sample.signed_no_body).
Proof.
  right. exists (sample.message0 None).
  split; [by exists sample.signed_no_body | reflexivity].
Defined.

Lemma ExecutionBlockHash_data_missing_iff_witness :
  (api.Version sample.bellatrix_no_body = DataVersionBellatrix ∧
   block.execution_payload_missing (api.Bellatrix sample.bellatrix_no_body) ∧
   (api.ExecutionBlockHash sample.bellatrix_no_body).2 = Some go.ErrDataMissing ∧
   (api.ExecutionBlockHash sample.bellatrix_no_body).1 = phase0.zeroHash32) ∧
  (api.Version sample.electra = DataVersionElectra ∧
   block.execution_payload_present (api.Electra sample.electra)
     {| block.BlockHash := sample.hash |} ∧
   api.ExecutionBlockHash sample.electra = (sample.hash, None)).
Proof.
  assert (Hmiss : block.execution_payload_missing (Some sample.signed_no_body)).
  { left. exact no_body_missing. }
  assert (Hpres : block.execution_payload_present (Some sample.signedE)
                    {| block.BlockHash := sample.hash |}).
  { exists sample.bodyE. split; [exact bodyE_present | reflexivity]. }
  split.
  - destruct (proj1 (ExecutionBlockHash_data_missing_iff sample.bellatrix_no_body)
                eq_refl) as (Hiff & _ & Hzero).
    split; [reflexivity|]. split; [exact Hmiss|].
    pose proof (proj2 Hiff Hmiss) as Herr.
    split; [exact Herr|]. apply Hzero. rewrite Herr. discriminate.
  - destruct (proj2 (proj2 (proj2 (ExecutionBlockHash_data_missing_iff sample.electra)))
                eq_refl) as (_ & Hhash & _).
    split; [reflexivity|]. split; [exact Hpres|]. exact (Hhash _ Hpres).
Defined.

Lemma collections_wrapped_in_order_witness :
  (api.Version sample.bellatrix_no_body = DataVersionBellatrix ∧
   block.body_missing (api.Bellatrix sample.bellatrix_no_body) ∧
   api.Attestations sample.bellatrix_no_body = (None, Some go.ErrDataMissing) ∧
   api.AttesterSlashings sample.bellatrix_no_body = (None, Some go.ErrDataMissing)) ∧
  (api.Version sample.deneb = DataVersionDeneb ∧
   block.body_present (api.Deneb sample.deneb) sample.body0 ∧
   api.wrapped_in_order
     (λ a, {| AttVersion := DataVersionDeneb; AttBellatrix := None; AttCapella := None;
              AttDeneb := a; AttElectra := None |})
     (Some [Some 1; None; Some 3]) (api.Attestations sample.deneb) ∧
   api.wrapped_in_order
     (λ a, {| SlVersion := DataVersionDeneb; SlBellatrix := None; SlCapella := None;
              SlDeneb := a; SlElectra := None |})
     (Some [Some 7]) (api.AttesterSlashings sample.deneb)) ∧
  (api.Version sample.electra = DataVersionElectra ∧
   block.body_present (api.Electra sample.electra) sample.bodyE ∧
   api.wrapped_in_order
     (λ a, {| AttVersion := DataVersionElectra; AttBellatrix := None; AttCapella := None;
              AttDeneb := None; AttElectra := a |})
     (Some [Some true; Some false]) (api.Attestations sample.electra) ∧
   api.wrapped_in_order
     (λ a, {| SlVersion := DataVersionElectra; SlBellatrix := None; SlCapella := None;
              SlDeneb := None; SlElectra := a |})
     None (api.AttesterSlashings sample.electra)).
Proof.
  split; [|split]; (split; [reflexivity|]).
  - split; [exact no_body_missing|].
    exact (proj1 (proj1 (collections_wrapped_in_order sample.bellatrix_no_body) eq_refl)
             no_body_missing).
  - split; [exact (body0_present _ eq_refl)|].
    exact (proj2 (proj1 (proj2 (proj2 (collections_wrapped_in_order sample.deneb)))
                    eq_refl) _ (body0_present _ eq_refl)).
  - split; [exact bodyE_present|].
    exact (proj2 (proj2 (proj2 (proj2 (collections_wrapped_in_order sample.electra)))
                    eq_refl) _ bodyE_present).
Defined.

Lemma body_fields_returned_as_is_witness :
  (api.Version sample.bellatrix = DataVersionBellatrix ∧
   block.body_present (api.Bellatrix sample.bellatrix) sample.body0 ∧
   api.SyncAggregate sample.bellatrix = (None, None) ∧
   api.ProposerSlashings sample.bellatrix = (None, None)) ∧
  (api.Version sample.electra = DataVersionElectra ∧
   block.body_present (api.Electra sample.electra) sample.bodyE ∧
   api.SyncAggregate sample.electra = (Some 9, None) ∧
   api.ProposerSlashings sample.electra = (Some [Some 4], None)).
Proof.
  split; (split; [reflexivity|]).
  - split; [exact (body0_present _ eq_refl)|].
    destruct (proj1 (body_fields_returned_as_is sample.bellatrix) eq_refl
                _ (body0_present _ eq_refl)) as (_ & _ & Hsync & Hslash).
    split; [exact (Hsync eq_refl) | exact (Hslash eq_refl)].
  - split; [exact bodyE_present|].
    destruct (proj2 (proj2 (proj2 (body_fields_returned_as_is sample.electra))) eq_refl
                _ bodyE_present) as (Hsync & Hslash & _).
    split; [exact Hsync | exact Hslash].
Defined.

Lemma sample_strings_proper (v : sample.Request) : ∀ str,
  api.slot_string sample.string_of sample.string_of sample.string_of sample.string_of
    v str →
  str ≠ "" ∧ str ≠ "unsupported version".
Proof. intros str H. destruct H; split; discriminate. Defined.


Lemma MarshalYAML_flow_then_single_quotes_witness :
  ((sample.encode_fail [] []).2 = Some (go.Foreign "cannot encode") ∧
   apiv1electra.MarshalYAML sample.encode_fail sample.contents
   = ([], Some (go.Foreign "cannot encode"))) ∧
  ((sample.encode_ok [] []).2 = None ∧
   ∃ out, apiv1electra.MarshalYAML sample.encode_ok sample.contents = (out, None) ∧
          length out = 5 ∧
          (∀ i c, [x7b; x22; x62; x22; x7d] !! i = Some c →
                  out !! i = Some (if Byte.eqb x22 c then x27 else c)) ∧
          x22 ∉ out).
Proof.
  split; (split; [reflexivity|]).
  - exact (proj1 (MarshalYAML_flow_then_single_quotes sample.encode_fail sample.contents)
             _ eq_refl).
  - exact (proj2 (MarshalYAML_flow_then_single_quotes sample.encode_ok sample.contents)
             eq_refl).
Defined.

Lemma UnmarshalYAML_stages_witness :
  let UnmarshalYAML :=
    apiv1electra.UnmarshalYAML nat 0 sample.parse sample.reencode sample.decode in
  ((sample.parse [] 0).2 = Some (go.Foreign "unexpected end of input") ∧
   UnmarshalYAML sample.contents []
   = (sample.contents,
      Some (go.Wrap (go.Foreign "unexpected end of input") "failed to unmarshal YAML"))) ∧
  ((sample.parse [x7b] 0).2 = None ∧
   (sample.reencode (sample.parse [x7b] 0).1).2 = Some (go.Foreign "unsupported value") ∧
   UnmarshalYAML sample.contents [x7b]
   = (sample.contents,
      Some (go.Wrap (go.Foreign "unsupported value") "failed to marshal JSON"))) ∧
  ((sample.parse [x7b; x7d] 0).2 = None ∧
   (sample.reencode (sample.parse [x7b; x7d] 0).1).2 = None ∧
   UnmarshalYAML sample.contents [x7b; x7d]
   = sample.decode sample.contents [x6e; x75; x6c; x6c]).
Proof.
  cbv zeta. split; [|split]; (split; [reflexivity|]).
  - exact (proj1 (UnmarshalYAML_stages nat 0 sample.parse sample.reencode sample.decode
                    sample.contents []) _ eq_refl).
  - split; [reflexivity|].
    exact (proj1 (proj2 (UnmarshalYAML_stages nat 0 sample.parse sample.reencode
                           sample.decode sample.contents [x7b])) _ eq_refl eq_refl).
  - split; [reflexivity|].
    exact (proj2 (proj2 (UnmarshalYAML_stages nat 0 sample.parse sample.reencode
                           sample.decode sample.contents [x7b; x7d])) eq_refl eq_refl).
Defined.

End OnSamples.

(** * Further properties of the accessors *)

Section MoreAccessorFacts.
Import spec.
Context {phase0_Attestation electra_Attestation : Type}.
Context {phase0_AttesterSlashing electra_AttesterSlashing : Type}.
Context {phase0_ProposerSlashing altair_SyncAggregate : Type}.

Local Abbreviation Request :=
  (api.VersionedBlockRequest phase0_Attestation electra_Attestation
     phase0_AttesterSlashing electra_AttesterSlashing
     phase0_ProposerSlashing altair_SyncAggregate).

Implicit Types (v : Request).

Variables message_root0 message_root1 message_root2 :
  block.BeaconBlock phase0_Attestation phase0_AttesterSlashing
    phase0_ProposerSlashing altair_SyncAggregate → phase0.Root * option go.error.
Variable message_rootE :
  block.BeaconBlock electra_Attestation electra_AttesterSlashing
    phase0_ProposerSlashing altair_SyncAggregate → phase0.Root * option go.error.
Variables body_root0 body_root1 body_root2 :
  block.BeaconBlockBody phase0_Attestation phase0_AttesterSlashing
    phase0_ProposerSlashing altair_SyncAggregate → phase0.Root * option go.error.
Variable body_rootE :
  block.BeaconBlockBody electra_Attestation electra_AttesterSlashing
    phase0_ProposerSlashing altair_SyncAggregate → phase0.Root * option go.error.

Local Abbreviation Root :=
  (api.Root message_root0 message_root1 message_root2 message_rootE).
Local Abbreviation BodyRoot :=
  (api.BodyRoot body_root0 body_root1 body_root2 body_rootE).

(** One branch of [Root] and [BodyRoot], over the chains of their guards. *)
Lemma roots_branch {A S P G} (slot : option (block.SignedBeaconBlock A S P G))
    hash_message hash_body :
  outcome.roots_hashed_or_data_missing slot hash_message hash_body
    match slot ?> block.Message with
    | None => (phase0.zeroRoot, Some go.ErrDataMissing)
    | Some message => hash_message message
    end
    match slot ?> block.Message ?> block.Body with
    | None => (phase0.zeroRoot, Some go.ErrDataMissing)
    | Some body => hash_body body
    end.
Proof.
  split; [|split; [|split]].
  - intros Hmiss. apply deref_message_None in Hmiss. by rewrite Hmiss.
  - intros message Hm. by rewrite (deref_message _ _ Hm).
  - intros Hmiss. apply deref_body_None in Hmiss. by rewrite Hmiss.
  - intros body Hb. by rewrite (deref_body _ _ Hb).
Qed.

(** X1.  With a known version tag, [Root] returns what the tree hash of the
    tag's package returns on the message of the tag's slot, and [BodyRoot]
    what it returns on the body, the root and the error as the hash gave
    them, a failure of the hash included; when the message, respectively the
    body, is missing they return the zero root with [ErrDataMissing] and the
    hash is not consulted. *)
Theorem Root_and_BodyRoot_hash_the_tagged_payload v :
  (api.Version v = DataVersionBellatrix →
   outcome.roots_hashed_or_data_missing (api.Bellatrix v)
     message_root0 body_root0 (Root v) (BodyRoot v)) ∧
  (api.Version v = DataVersionCapella →
   outcome.roots_hashed_or_data_missing (api.Capella v)
     message_root1 body_root1 (Root v) (BodyRoot v)) ∧
  (api.Version v = DataVersionDeneb →
   outcome.roots_hashed_or_data_missing (api.Deneb v)
     message_root2 body_root2 (Root v) (BodyRoot v)) ∧
  (api.Version v = DataVersionElectra →
   outcome.roots_hashed_or_data_missing (api.Electra v)
     message_rootE body_rootE (Root v) (BodyRoot v)).
Proof.
  split; [|split; [|split]]; intros Htag;
    unfold api.Root, api.BodyRoot; rewrite Htag; apply roots_branch.
Qed.

(** One branch of the three scalar accessors. *)
Lemma scalars_branch {A S P G} (slot : option (block.SignedBeaconBlock A S P G)) :
  outcome.scalars_fail_iff_message_missing slot
    match slot ?> block.Message with
    | None => (0%Z, Some go.ErrDataMissing)
    | Some message => (block.Slot message, None)
    end
    match slot ?> block.Message with
    | None => (phase0.zeroRoot, Some go.ErrDataMissing)
    | Some message => (block.ParentRoot message, None)
    end
    match slot ?> block.Message with
    | None => (phase0.zeroRoot, Some go.ErrDataMissing)
    | Some message => (block.StateRoot message, None)
    end.
Proof.
  unfold outcome.scalars_fail_iff_message_missing.
  rewrite <- deref_message_None.
  destruct (slot ?> block.Message); repeat split; congruence.
Qed.

(** X2.  With a known version tag, [Slot], [ParentRoot] and [StateRoot]
    return the zero value with [ErrDataMissing] if and only if the tag's
    payload slot is nil or its message is nil; the body and what is below it
    play no part. *)
Theorem scalar_accessors_data_missing_iff v :
  (api.Version v = DataVersionBellatrix →
   outcome.scalars_fail_iff_message_missing (api.Bellatrix v)
     (api.Slot v) (api.ParentRoot v) (api.StateRoot v)) ∧
  (api.Version v = DataVersionCapella →
   outcome.scalars_fail_iff_message_missing (api.Capella v)
     (api.Slot v) (api.ParentRoot v) (api.StateRoot v)) ∧
  (api.Version v = DataVersionDeneb →
   outcome.scalars_fail_iff_message_missing (api.Deneb v)
     (api.Slot v) (api.ParentRoot v) (api.StateRoot v)) ∧
  (api.Version v = DataVersionElectra →
   outcome.scalars_fail_iff_message_missing (api.Electra v)
     (api.Slot v) (api.ParentRoot v) (api.StateRoot v)).
Proof.
  split; [|split; [|split]]; intros Htag;
    unfold api.Slot, api.ParentRoot, api.StateRoot; rewrite Htag;
    apply scalars_branch.
Qed.

(** One branch of the four accessors that read the body. *)
Lemma body_reads_branch {A S P G W1 W2}
    (slot : option (block.SignedBeaconBlock A S P G))
    (attestations : block.BeaconBlockBody A S P G → go.slice W1)
    (attester_slashings : block.BeaconBlockBody A S P G → go.slice W2) :
  outcome.body_reads_fail_iff_body_missing slot
    match slot ?> block.Message ?> block.Body with
    | None => (None, Some go.ErrDataMissing)
    | Some body => (attestations body, None)
    end
    match slot ?> block.Message ?> block.Body with
    | None => (None, Some go.ErrDataMissing)
    | Some body => (attester_slashings body, None)
    end
    match slot ?> block.Message ?> block.Body with
    | None => (None, Some go.ErrDataMissing)
    | Some body => (block.ProposerSlashings body, None)
    end
    match slot ?> block.Message ?> block.Body with
    | None => (None, Some go.ErrDataMissing)
    | Some body => (block.SyncAggregate body, None)
    end.
Proof.
  unfold outcome.body_reads_fail_iff_body_missing.
  rewrite <- deref_body_None.
  destruct (slot ?> block.Message ?> block.Body); repeat split; congruence.
Qed.

(** X3.  With a known version tag, [Attestations], [AttesterSlashings],
    [ProposerSlashings] and [SyncAggregate] return nil with [ErrDataMissing]
    if and only if the tag's payload slot, its message or the message's body
    is nil. *)
Theorem body_accessors_data_missing_iff v :
  (api.Version v = DataVersionBellatrix →
   outcome.body_reads_fail_iff_body_missing (api.Bellatrix v)
     (api.Attestations v) (api.AttesterSlashings v)
     (api.ProposerSlashings v) (api.SyncAggregate v)) ∧
  (api.Version v = DataVersionCapella →
   outcome.body_reads_fail_iff_body_missing (api.Capella v)
     (api.Attestations v) (api.AttesterSlashings v)
     (api.ProposerSlashings v) (api.SyncAggregate v)) ∧
  (api.Version v = DataVersionDeneb →
   outcome.body_reads_fail_iff_body_missing (api.Deneb v)
     (api.Attestations v) (api.AttesterSlashings v)
     (api.ProposerSlashings v) (api.SyncAggregate v)) ∧
  (api.Version v = DataVersionElectra →
   outcome.body_reads_fail_iff_body_missing (api.Electra v)
     (api.Attestations v) (api.AttesterSlashings v)
     (api.ProposerSlashings v) (api.SyncAggregate v)).
Proof.
  split; [|split; [|split]]; intros Htag;
    unfold api.Attestations, api.AttesterSlashings, api.ProposerSlashings,
      api.SyncAggregate;
    rewrite Htag; apply body_reads_branch.
Qed.

Variables string0 string1 string2 :
  block.SignedBeaconBlock phase0_Attestation phase0_AttesterSlashing
    phase0_ProposerSlashing altair_SyncAggregate → string.
Variable stringE :
  block.SignedBeaconBlock electra_Attestation electra_AttesterSlashing
    phase0_ProposerSlashing altair_SyncAggregate → string.

Local Abbreviation same_results :=
  (outcome.same_results message_root0 message_root1 message_root2 message_rootE
     body_root0 body_root1 body_root2 body_rootE string0 string1 string2 stringE).

(** The cases of a payload slot under a guard: the links that are there. *)
Ltac break_slot :=
  match goal with
  | |- context [?x ?> block.Message] =>
      destruct x as [[[message|]]|]; simpl;
      [ destruct (block.Body message) as [body|]; simpl;
        [ destruct (block.ExecutionPayload body); simpl | ] | | ]
  | _ => idtac
  end.

(** X4.  An accessor reads the version tag and the slot of that tag, and
    nothing else: two requests with the same known tag and the same payload
    in the slot of that tag get the same result from each of the eleven
    accessors, whatever their three other slots hold. *)
Theorem accessors_read_only_the_tagged_slot v v' :
  api.Version v = api.Version v' →
  (api.Version v = DataVersionBellatrix → api.Bellatrix v = api.Bellatrix v' →
   same_results v v') ∧
  (api.Version v = DataVersionCapella → api.Capella v = api.Capella v' →
   same_results v v') ∧
  (api.Version v = DataVersionDeneb → api.Deneb v = api.Deneb v' →
   same_results v v') ∧
  (api.Version v = DataVersionElectra → api.Electra v = api.Electra v' →
   same_results v v').
Proof.
  intros Hsame.
  split; [|split; [|split]]; intros Htag Hslot;
    unfold outcome.same_results, api.Slot, api.ExecutionBlockHash, api.Attestations,
      api.Root, api.BodyRoot, api.ParentRoot, api.StateRoot, api.AttesterSlashings,
      api.ProposerSlashings, api.SyncAggregate, api.String;
    rewrite <- Hsame, Htag, Hslot; repeat split.
Qed.

(** X5.  Each of the eight accessors that do not hash returns either a nil
    error, or its zero value with [ErrDataMissing], or its zero value with
    [ErrUnsupportedVersion]: a failure never carries a partial value, and no
    other error arises.  The error is [ErrUnsupportedVersion] if and only if
    the version tag is outside the four. *)
Theorem failures_are_zero_valued_sentinels v :
  (outcome.value_or_sentinel 0%Z (api.Slot v) ∧
   outcome.value_or_sentinel phase0.zeroHash32 (api.ExecutionBlockHash v) ∧
   outcome.value_or_sentinel None (api.Attestations v) ∧
   outcome.value_or_sentinel phase0.zeroRoot (api.ParentRoot v) ∧
   outcome.value_or_sentinel phase0.zeroRoot (api.StateRoot v) ∧
   outcome.value_or_sentinel None (api.AttesterSlashings v) ∧
   outcome.value_or_sentinel None (api.ProposerSlashings v) ∧
   outcome.value_or_sentinel None (api.SyncAggregate v)) ∧
  (((api.Slot v).2 = Some go.ErrUnsupportedVersion ↔ known (api.Version v) = false) ∧
   ((api.ExecutionBlockHash v).2 = Some go.ErrUnsupportedVersion
    ↔ known (api.Version v) = false) ∧
   ((api.Attestations v).2 = Some go.ErrUnsupportedVersion
    ↔ known (api.Version v) = false) ∧
   ((api.ParentRoot v).2 = Some go.ErrUnsupportedVersion
    ↔ known (api.Version v) = false) ∧
   ((api.StateRoot v).2 = Some go.ErrUnsupportedVersion
    ↔ known (api.Version v) = false) ∧
   ((api.AttesterSlashings v).2 = Some go.ErrUnsupportedVersion
    ↔ known (api.Version v) = false) ∧
   ((api.ProposerSlashings v).2 = Some go.ErrUnsupportedVersion
    ↔ known (api.Version v) = false) ∧
   ((api.SyncAggregate v).2 = Some go.ErrUnsupportedVersion
    ↔ known (api.Version v) = false)).
Proof.
  unfold outcome.value_or_sentinel, api.Slot, api.ExecutionBlockHash,
    api.Attestations, api.ParentRoot, api.StateRoot, api.AttesterSlashings,
    api.ProposerSlashings, api.SyncAggregate.
  destruct v as [version b c d e]; destruct version; simpl; break_slot;
    (split; [repeat split; auto | repeat split; congruence]).
Qed.

(** X6.  The accessors fail together, level by level.  If
    [ExecutionBlockHash] succeeds so do the four accessors that read the
    body; these four succeed together; if they succeed so do [Slot],
    [ParentRoot] and [StateRoot], which succeed together.  Whenever [Slot]
    fails [Root] fails with the zero root and the same error, and whenever
    [Attestations] fails [BodyRoot] does. *)
Theorem accessors_fail_level_by_level v :
  ((api.ExecutionBlockHash v).2 = None → (api.Attestations v).2 = None) ∧
  ((api.Attestations v).2 = None ↔ (api.AttesterSlashings v).2 = None) ∧
  ((api.Attestations v).2 = None ↔ (api.ProposerSlashings v).2 = None) ∧
  ((api.Attestations v).2 = None ↔ (api.SyncAggregate v).2 = None) ∧
  ((api.Attestations v).2 = None → (api.Slot v).2 = None) ∧
  ((api.Slot v).2 = None ↔ (api.ParentRoot v).2 = None) ∧
  ((api.Slot v).2 = None ↔ (api.StateRoot v).2 = None) ∧
  (∀ err, (api.Slot v).2 = Some err → Root v = (phase0.zeroRoot, Some err)) ∧
  (∀ err, (api.Attestations v).2 = Some err →
          BodyRoot v = (phase0.zeroRoot, Some err)).
Proof.
  unfold api.Slot, api.ExecutionBlockHash, api.Attestations, api.Root, api.BodyRoot,
    api.ParentRoot, api.StateRoot, api.AttesterSlashings, api.ProposerSlashings,
    api.SyncAggregate.
  destruct v as [version b c d e]; destruct version; simpl; break_slot;
    repeat split; try congruence; intros; congruence.
Qed.

(** X7.  [Attestations] and [AttesterSlashings] return a nil slice exactly
    when they fail: a success is a non-nil slice, empty when the body's
    collection is empty or nil. *)
Theorem collection_result_nil_iff_failure v :
  ((api.Attestations v).1 = None ↔ (api.Attestations v).2 ≠ None) ∧
  ((api.AttesterSlashings v).1 = None ↔ (api.AttesterSlashings v).2 ≠ None).
Proof.
  unfold api.Attestations, api.AttesterSlashings, api.wrap_each.
  destruct v as [version b c d e]; destruct version; simpl; break_slot;
    repeat split; congruence.
Qed.

(** Wrapping every element and reading the wrapped field gives the source. *)
Lemma wrap_each_read_back {W T} (field : W → option T) (rebuilt : option T → W)
    (zero : W) (src : go.slice (option T)) :
  (∀ a, field (rebuilt a) = a) →
  outcome.read_back field rebuilt src (api.wrap_each zero rebuilt src, None).
Proof.
  intros Hfield. exists (rebuilt <$> go.elems src).
  rewrite wrap_each_fmap. split; [done|].
  induction (go.elems src) as [|a rest [IHfields IHall]]; csimpl.
  - split; [done | constructor].
  - split; [by rewrite Hfield, IHfields|].
    constructor; [by rewrite Hfield | exact IHall].
Qed.

(** X8.  With a known version tag and the body there, the body's collection
    is read back from the result of [Attestations]: the field of the tag,
    taken from each element in order, gives the source elements, nil
    pointers included (a nil attestation is wrapped, not skipped and not an
    error), and each element holds nothing besides the tag and that field.
    The same holds for [AttesterSlashings]. *)
Theorem collections_read_back_from_wrappers v :
  (api.Version v = DataVersionBellatrix →
   ∀ body, block.body_present (api.Bellatrix v) body →
     outcome.read_back AttBellatrix
       (λ a, spec.mkVersionedAttestation DataVersionBellatrix a None None None)
       (block.Attestations body) (api.Attestations v) ∧
     outcome.read_back SlBellatrix
       (λ a, spec.mkVersionedAttesterSlashing DataVersionBellatrix a None None None)
       (block.AttesterSlashings body) (api.AttesterSlashings v)) ∧
  (api.Version v = DataVersionCapella →
   ∀ body, block.body_present (api.Capella v) body →
     outcome.read_back AttCapella
       (λ a, spec.mkVersionedAttestation DataVersionCapella None a None None)
       (block.Attestations body) (api.Attestations v) ∧
     outcome.read_back SlCapella
       (λ a, spec.mkVersionedAttesterSlashing DataVersionCapella None a None None)
       (block.AttesterSlashings body) (api.AttesterSlashings v)) ∧
  (api.Version v = DataVersionDeneb →
   ∀ body, block.body_present (api.Deneb v) body →
     outcome.read_back AttDeneb
       (λ a, spec.mkVersionedAttestation DataVersionDeneb None None a None)
       (block.Attestations body) (api.Attestations v) ∧
     outcome.read_back SlDeneb
       (λ a, spec.mkVersionedAttesterSlashing DataVersionDeneb None None a None)
       (block.AttesterSlashings body) (api.AttesterSlashings v)) ∧
  (api.Version v = DataVersionElectra →
   ∀ body, block.body_present (api.Electra v) body →
     outcome.read_back AttElectra
       (λ a, spec.mkVersionedAttestation DataVersionElectra None None None a)
       (block.Attestations body) (api.Attestations v) ∧
     outcome.read_back SlElectra
       (λ a, spec.mkVersionedAttesterSlashing DataVersionElectra None None None a)
       (block.AttesterSlashings body) (api.AttesterSlashings v)).
Proof.
  split; [|split; [|split]]; intros Htag body Hb;
    unfold api.Attestations, api.AttesterSlashings;
    rewrite Htag, (deref_body _ _ Hb);
    split; by apply wrap_each_read_back.
Qed.

End MoreAccessorFacts.

(** * Further properties of the YAML codec *)

Section MoreCodecFacts.
Import apiv1electra.
Context {electra_BeaconBlock deneb_KZGProof deneb_Blob : Type}.

Local Abbreviation Contents :=
  (BlockContents electra_BeaconBlock deneb_KZGProof deneb_Blob).
Local Abbreviation Field :=
  (yamlField electra_BeaconBlock deneb_KZGProof deneb_Blob).

Implicit Types (b : Contents).

(** A map that moves one byte fixes exactly the lists without that byte. *)
Lemma fmap_swap_fixed (s : list byte) (old new : byte) :
  old ≠ new →
  ((λ c, if Byte.eqb old c then new else c) <$> s = s ↔ old ∉ s).
Proof.
  intros Hne. induction s as [|c rest IH]; csimpl.
  - split; [intros _; apply not_elem_of_nil | done].
  - rewrite not_elem_of_cons. destruct (Byte.eqb old c) eqn:E.
    + apply Byte.byte_dec_bl in E. subst c. split.
      * intros [= H _]. by destruct Hne.
      * by intros [H _].
    + apply Byte.eqb_false in E. split.
      * intros [= H]. split; [done | by apply IH].
      * intros [_ H]. f_equal. by apply IH.
Qed.

(** X9.  When the serializer succeeds, [MarshalYAML] returns its output
    byte for byte if and only if that output holds no double quote; single
    quotes already in the output are kept, so after the replacement a single
    quote in the result may stand for either. *)
Theorem MarshalYAML_unchanged_iff_no_double_quote
    (yaml_MarshalWithOptions :
       list (string * Field) → list EncodeOption → list byte * option go.error) b :
  let serialized :=
    yaml_MarshalWithOptions
      (blockContentsYAML_fields
         {| yBlock := Block b; yKZGProofs := KZGProofs b; yBlobs := Blobs b |})
      [Flow true] in
  serialized.2 = None →
  (MarshalYAML yaml_MarshalWithOptions b = (serialized.1, None)
   ↔ x22 ∉ serialized.1) ∧
  (∀ i, serialized.1 !! i = Some x27 →
        (MarshalYAML yaml_MarshalWithOptions b).1 !! i = Some x27).
Proof.
  intros serialized. unfold MarshalYAML. fold serialized.
  destruct serialized as [yamlBytes err]; simpl. intros ->.
  rewrite ReplaceAll_byte. split.
  - rewrite <- (fmap_swap_fixed yamlBytes x22 x27) by discriminate.
    split; [by intros [= ->] | by intros ->].
  - intros i Hi. simpl. by rewrite list_lookup_fmap, Hi.
Qed.

(** X10.  [UnmarshalYAML] returns a nil error if and only if the parse, the
    encoding to JSON and [UnmarshalJSON] on the encoded bytes all return a
    nil error; and whenever [UnmarshalJSON] is not reached, or leaves its
    receiver as it was, the receiver comes back as it went in. *)
Theorem UnmarshalYAML_succeeds_iff_all_stages_do
    (blockContentsJSON : Type) (zero_blockContentsJSON : blockContentsJSON)
    (yaml_Unmarshal :
       list byte → blockContentsJSON → blockContentsJSON * option go.error)
    (json_Marshal : blockContentsJSON → list byte * option go.error)
    (UnmarshalJSON : Contents → list byte → Contents * option go.error)
    b (input : list byte) :
  let result :=
    UnmarshalYAML blockContentsJSON zero_blockContentsJSON
      yaml_Unmarshal json_Marshal UnmarshalJSON b input in
  let parsed := yaml_Unmarshal input zero_blockContentsJSON in
  let encoded := json_Marshal parsed.1 in
  (result.2 = None
   ↔ parsed.2 = None ∧ encoded.2 = None ∧ (UnmarshalJSON b encoded.1).2 = None) ∧
  (result.1 ≠ b →
   parsed.2 = None ∧ encoded.2 = None ∧ (UnmarshalJSON b encoded.1).1 ≠ b).
Proof.
  intros result parsed encoded. subst result. unfold UnmarshalYAML.
  fold parsed. destruct parsed as [unmarshaled [perr|]]; simpl in *.
  - split; [split; [done | by intros [? _]] | done].
  - fold encoded. destruct encoded as [marshaled [eerr|]]; simpl.
    + split; [split; [done | by intros (_ & ? & _)] | done].
    + split; [split; [done | by intros (_ & _ & ?)] | done].
Qed.

End MoreCodecFacts.

(** * The further properties on the sample values *)

Section MoreOnSamples.
Import spec.

Lemma Root_and_BodyRoot_hash_the_tagged_payload_witness :
  (api.Version sample.capella = DataVersionCapella ∧
   block.message_present (api.Capella sample.capella)
     (sample.message0 (Some sample.body0)) ∧
   api.Root sample2.root_fails sample.root_of sample2.root_fails sample2.root_fails
     sample.capella = (sample.state, None)) ∧
  (api.Version sample.bellatrix_no_body = DataVersionBellatrix ∧
   block.body_missing (api.Bellatrix sample.bellatrix_no_body) ∧
   api.BodyRoot sample.root_of sample.root_of sample.root_of sample.root_of
     sample.bellatrix_no_body = (phase0.zeroRoot, Some go.ErrDataMissing)) ∧
  (api.Version sample.electra = DataVersionElectra ∧
   block.body_present (api.Electra sample.electra) sample.bodyE ∧
   api.BodyRoot sample.root_of sample.root_of sample.root_of sample2.root_fails
     sample.electra = (phase0.zeroRoot, Some (go.Foreign "list too long"))).
Proof.
  assert (Hm : block.message_present (Some sample.signed0)
                 (sample.message0 (Some sample.body0))).
  { by exists sample.signed0. }
  split; [|split]; (split; [reflexivity|]).
  - split; [exact Hm|].
    destruct (proj1 (proj2 (Root_and_BodyRoot_hash_the_tagged_payload
                sample2.root_fails sample.root_of sample2.root_fails sample2.root_fails
                sample.root_of sample.root_of sample.root_of sample.root_of
                sample.capella)) eq_refl) as (_ & Hroot & _).
    exact (Hroot _ Hm).
  - split; [exact no_body_missing|].
    destruct (proj1 (Root_and_BodyRoot_hash_the_tagged_payload
                sample.root_of sample.root_of sample.root_of sample.root_of
                sample.root_of sample.root_of sample.root_of sample.root_of
                sample.bellatrix_no_body) eq_refl) as (_ & _ & Hmiss & _).
    exact (Hmiss no_body_missing).
  - split; [exact bodyE_present|].
    destruct (proj2 (proj2 (proj2 (Root_and_BodyRoot_hash_the_tagged_payload
                sample.root_of sample.root_of sample.root_of sample.root_of
                sample.root_of sample.root_of sample.root_of sample2.root_fails
                sample.electra))) eq_refl) as (_ & _ & _ & Hbody).
    exact (Hbody _ bodyE_present).
Defined.

Lemma scalar_accessors_data_missing_iff_witness :
  (api.Version sample2.capella_no_message = DataVersionCapella ∧
   block.message_missing (api.Capella sample2.capella_no_message) ∧
   api.Slot sample2.capella_no_message = (0%Z, Some go.ErrDataMissing) ∧
   api.ParentRoot sample2.capella_no_message
   = (phase0.zeroRoot, Some go.ErrDataMissing) ∧
   api.StateRoot sample2.capella_no_message
   = (phase0.zeroRoot, Some go.ErrDataMissing)) ∧
  (api.Version sample.bellatrix_no_body = DataVersionBellatrix ∧
   api.Slot sample.bellatrix_no_body ≠ (0%Z, Some go.ErrDataMissing) ∧
   ¬ block.message_missing (api.Bellatrix sample.bellatrix_no_body)).
Proof.
  assert (Hmiss : block.message_missing (Some sample2.signed_no_message)).
  { right. by exists sample2.signed_no_message. }
  split; (split; [reflexivity|]).
  - destruct (proj1 (proj2 (scalar_accessors_data_missing_iff
                sample2.capella_no_message)) eq_refl) as (Hslot & Hparent & Hstate).
    split; [exact Hmiss|].
    split; [exact (proj1 Hslot Hmiss)|].
    split; [exact (proj1 Hparent Hmiss) | exact (proj1 Hstate Hmiss)].
  - destruct (proj1 (scalar_accessors_data_missing_iff sample.bellatrix_no_body)
                eq_refl) as (Hslot & _).
    assert (Hne : api.Slot sample.bellatrix_no_body ≠ (0%Z, Some go.ErrDataMissing))
      by discriminate.
    split; [exact Hne|]. intros H. exact (Hne (proj1 Hslot H)).
Defined.

Lemma body_accessors_data_missing_iff_witness :
  api.Version sample2.bellatrix_wrong_slot = DataVersionBellatrix ∧
  block.body_missing (api.Bellatrix sample2.bellatrix_wrong_slot) ∧
  api.Attestations sample2.bellatrix_wrong_slot = (None, Some go.ErrDataMissing) ∧
  api.AttesterSlashings sample2.bellatrix_wrong_slot = (None, Some go.ErrDataMissing) ∧
  api.ProposerSlashings sample2.bellatrix_wrong_slot = (None, Some go.ErrDataMissing) ∧
  api.SyncAggregate sample2.bellatrix_wrong_slot = (None, Some go.ErrDataMissing).
Proof.
  assert (Hmiss : block.body_missing
                    (api.Bellatrix sample2.bellatrix_wrong_slot)).
  { left. by left. }
  destruct (proj1 (body_accessors_data_missing_iff sample2.bellatrix_wrong_slot)
              eq_refl) as (Hatt & Hsl & Hps & Hsa).
  split; [reflexivity|]. split; [exact Hmiss|].
  split; [exact (proj1 Hatt Hmiss)|].
  split; [exact (proj1 Hsl Hmiss)|].
  split; [exact (proj1 Hps Hmiss) | exact (proj1 Hsa Hmiss)].
Defined.

Lemma accessors_read_only_the_tagged_slot_witness :
  api.Version sample.bellatrix = api.Version sample2.bellatrix_crowded ∧
  api.Version sample.bellatrix = DataVersionBellatrix ∧
  api.Bellatrix sample.bellatrix = api.Bellatrix sample2.bellatrix_crowded ∧
  outcome.same_results
    sample.root_of sample.root_of sample.root_of sample.root_of
    sample.root_of sample.root_of sample.root_of sample.root_of
    sample.string_of sample.string_of sample.string_of sample.string_of
    sample.bellatrix sample2.bellatrix_crowded.
Proof.
  split; [reflexivity|]. split; [reflexivity|]. split; [reflexivity|].
  exact (proj1 (accessors_read_only_the_tagged_slot
                  sample.root_of sample.root_of sample.root_of sample.root_of
                  sample.root_of sample.root_of sample.root_of sample.root_of
                  sample.string_of sample.string_of sample.string_of sample.string_of
                  sample.bellatrix sample2.bellatrix_crowded eq_refl)
           eq_refl eq_refl).
Defined.

Lemma body_nil_present :
  block.body_present (api.Deneb sample2.deneb_nil_collections) sample2.body_nil.
Proof.
  exists (sample.message0 (Some sample2.body_nil)).
  split; [by eexists | reflexivity].
Defined.

Lemma collections_read_back_from_wrappers_witness :
  (api.Version sample.bellatrix = DataVersionBellatrix ∧
   block.body_present (api.Bellatrix sample.bellatrix) sample.body0 ∧
   outcome.read_back AttBellatrix
     (λ a, spec.mkVersionedAttestation DataVersionBellatrix a None None None)
     (Some [Some 1; None; Some 3]) (api.Attestations sample.bellatrix)) ∧
  (api.Version sample2.deneb_nil_collections = DataVersionDeneb ∧
   block.body_present (api.Deneb sample2.deneb_nil_collections) sample2.body_nil ∧
   outcome.read_back SlDeneb
     (λ a, spec.mkVersionedAttesterSlashing DataVersionDeneb None None a None)
     None (api.AttesterSlashings sample2.deneb_nil_collections)).
Proof.
  split; (split; [reflexivity|]).
  - split; [exact (body0_present _ eq_refl)|].
    exact (proj1 (proj1 (collections_read_back_from_wrappers sample.bellatrix)
                    eq_refl _ (body0_present _ eq_refl))).
  - split; [exact body_nil_present|].
    exact (proj2 (proj1 (proj2 (proj2 (collections_read_back_from_wrappers
                    sample2.deneb_nil_collections))) eq_refl _ body_nil_present)).
Defined.

Lemma MarshalYAML_unchanged_iff_no_double_quote_witness :
  (sample2.encode_plain [] []).2 = None ∧
  (x22 ∉ [x7b; x27; x62; x27; x7d]) ∧
  apiv1electra.MarshalYAML sample2.encode_plain sample.contents
  = ([x7b; x27; x62; x27; x7d], None).
Proof.
  assert (Hno : x22 ∉ [x7b; x27; x62; x27; x7d]).
  { intros Hin.
    repeat (apply elem_of_cons in Hin as [Hin | Hin]; [discriminate|]).
    by apply elem_of_nil in Hin. }
  split; [reflexivity|]. split; [exact Hno|].
  exact (proj2 (proj1 (MarshalYAML_unchanged_iff_no_double_quote
                         sample2.encode_plain sample.contents eq_refl)) Hno).
Defined.

Lemma UnmarshalYAML_succeeds_iff_all_stages_do_witness :
  ((sample.parse [x7b; x7d] 0).2 = None ∧
   (sample.reencode (sample.parse [x7b; x7d] 0).1).2 = None ∧
   (apiv1electra.UnmarshalYAML nat 0 sample.parse sample.reencode sample.decode
      sample.contents [x7b; x7d]).2 = None) ∧
  ((sample2.decode_fails sample.contents [x6e; x75; x6c; x6c]).2 ≠ None ∧
   (apiv1electra.UnmarshalYAML nat 0 sample.parse sample.reencode
      sample2.decode_fails sample.contents [x7b; x7d]).2 ≠ None).
Proof.
  split.
  - split; [reflexivity|]. split; [reflexivity|].
    exact (proj2 (proj1 (UnmarshalYAML_succeeds_iff_all_stages_do nat 0
                           sample.parse sample.reencode sample.decode
                           sample.contents [x7b; x7d]))
             (conj eq_refl (conj eq_refl eq_refl))).
  - assert (Hfail : (sample2.decode_fails sample.contents [x6e; x75; x6c; x6c]).2
                    ≠ None) by discriminate.
    split; [exact Hfail|]. intros Hok.
    destruct (proj1 (proj1 (UnmarshalYAML_succeeds_iff_all_stages_do nat 0
                              sample.parse sample.reencode sample2.decode_fails
                              sample.contents [x7b; x7d])) Hok) as (_ & _ & Hd).
    exact (Hfail Hd).
Defined.

End MoreOnSamples.

(** * The loop of the collection accessors *)

Section LoopFacts.
Context {A B : Type}.

(** X11.  The loop of [Attestations] and [AttesterSlashings] assigns every
    index of the slice it made: whatever zero value the slice was made of,
    the result is the same, as long as the source, and none of its elements
    is left as made. *)
Theorem wrap_each_assigns_every_index (zero zero' : B) (wrap : A → B)
    (src : go.slice A) :
  api.wrap_each zero wrap src = api.wrap_each zero' wrap src ∧
  ∃ out, api.wrap_each zero wrap src = Some out ∧
         length out = go.len src ∧
         ∀ i, i < length out → ∃ a, go.elems src !! i = Some a ∧ out !! i = Some (wrap a).
Proof.
  rewrite !wrap_each_fmap. split; [done|].
  exists (wrap <$> go.elems src). split; [done|].
  split; [by rewrite length_fmap|].
  intros i Hi. rewrite length_fmap in Hi.
  destruct (lookup_lt_is_Some_2 _ _ Hi) as [a Ha].
  exists a. split; [done|]. by rewrite list_lookup_fmap, Ha.
Qed.

End LoopFacts.
